(** * The advisory AI scoring service ([ai-scorer/app/api.py])

    A shallow embedding of the Flask scoring service: the loosely typed
    JSON payload, the exceptions Python raises on it, the request handler
    [score_transaction] with its [try]/[except] envelope, and the model
    life cycle [load_or_create_model].

    Numbers: a Python [float] (and a [numpy.float64]) is modelled by an exact
    rational [Q]; rounding, infinities and NaN are outside the model.  A
    Python [int] is a [Z], a [bool] is a [bool]; the three mix in arithmetic
    and comparisons the way Python mixes them.

    Libraries: Flask, numpy, scikit-learn, joblib and the operating system
    are not part of the repository.  What they return is an input of the
    embedding: the outcome of [request.get_json()], whether [np.array]
    accepts a row, the two inference methods of the fitted model, and the
    file operations. *)

From Stdlib Require Import QArith Qminmax Lqa.
From stdpp Require Import gmap strings list fin_maps pretty.

#[local] Set Warnings "-register-all".
#[local] Open Scope Z_scope.

(** ** Python values *)

(** What [json.loads] produces, and what the handler computes with. *)
Inductive pyval : Type :=
| PyNone
| PyBool (b : bool)
| PyInt (n : Z)
| PyFloat (x : Q)
| PyStr (s : string)
| PyList (xs : list pyval)
| PyDict (d : gmap string pyval).

(** [type(v).__name__], as it appears in Python's error messages. *)
Definition type_name (v : pyval) : string :=
  match v with
  | PyNone => "NoneType"
  | PyBool _ => "bool"
  | PyInt _ => "int"
  | PyFloat _ => "float"
  | PyStr _ => "str"
  | PyList _ => "list"
  | PyDict _ => "dict"
  end.

(** ** Exceptions *)

(** An exception: its class name and [str(e)]. *)
Record exn : Type := Exception { exn_class : string; exn_str : string }.

Inductive result (A : Type) : Type :=
| Ok (a : A)
| Raise (e : exn).
Arguments Ok {A} a.
Arguments Raise {A} e.

#[export] Instance result_ret : MRet result := fun _ a => Ok a.
#[export] Instance result_bind : MBind result := fun _ _ f r =>
  match r with
  | Ok a => f a
  | Raise e => Raise e
  end.

Definition TypeError {A} (msg : string) : result A :=
  Raise (Exception "TypeError" msg).
Definition AttributeError {A} (msg : string) : result A :=
  Raise (Exception "AttributeError" msg).

(** ** Python operators used by the handler *)

(** [not v] is [negb (truthy v)]: [None], [False], zero and every empty
    container are falsy. *)
Definition truthy (v : pyval) : bool :=
  match v with
  | PyNone => false
  | PyBool b => b
  | PyInt n => negb (n =? 0)
  | PyFloat x => negb (Qeq_bool x 0)
  | PyStr s => negb (String.length s =? 0)%nat
  | PyList xs => negb (length xs =? 0)%nat
  | PyDict d => negb (size d =? 0)%nat
  end.

(** The value of a number in a mixed [bool]/[int]/[float] operation. *)
Definition as_num (v : pyval) : option Q :=
  match v with
  | PyBool b => Some (inject_Z (Z.b2z b))
  | PyInt n => Some (inject_Z n)
  | PyFloat x => Some x
  | _ => None
  end.

(** [data.get(key, default)].  Only a [dict] has the method. *)
Definition py_get (data : pyval) (key : string) (dflt : pyval) : result pyval :=
  match data with
  | PyDict d => Ok (default dflt (d !! key))
  | _ => AttributeError ("'" +:+ type_name data +:+ "' object has no attribute 'get'")
  end.

Fixpoint repeat_string (n : nat) (s : string) : string :=
  match n with
  | O => ""
  | S n' => s +:+ repeat_string n' s
  end.

(** [v * k] for an [int] literal [k]: numbers multiply, sequences repeat. *)
Definition py_mul_int (v : pyval) (k : Z) : result pyval :=
  match v with
  | PyBool b => Ok (PyInt (Z.b2z b * k))
  | PyInt n => Ok (PyInt (n * k))
  | PyFloat x => Ok (PyFloat (x * inject_Z k))
  | PyStr s => Ok (PyStr (repeat_string (Z.to_nat k) s))
  | PyList xs => Ok (PyList (mjoin (replicate (Z.to_nat k) xs)))
  | PyNone | PyDict _ =>
      TypeError ("unsupported operand type(s) for *: '" +:+ type_name v +:+ "' and 'int'")
  end.

(** [v * c] for a [float] literal [c]. *)
Definition py_mul_float (v : pyval) (c : Q) : result pyval :=
  match as_num v with
  | Some x => Ok (PyFloat (x * c))
  | None =>
      match v with
      | PyStr _ | PyList _ =>
          TypeError "can't multiply sequence by non-int of type 'float'"
      | _ =>
          TypeError ("unsupported operand type(s) for *: '" +:+ type_name v +:+ "' and 'float'")
      end
  end.

(** [x < y] on floats. *)
Definition float_lt (x y : Q) : bool := negb (Qle_bool y x).

(** [v < c] and [v > c] against a [float] literal [c]: every comparison of
    the handler has this shape. *)
Definition py_lt_float (v : pyval) (c : Q) : result bool :=
  match as_num v with
  | Some x => Ok (float_lt x c)
  | None =>
      TypeError ("'<' not supported between instances of '" +:+ type_name v +:+ "' and 'float'")
  end.

Definition py_gt_float (v : pyval) (c : Q) : result bool :=
  match as_num v with
  | Some x => Ok (float_lt c x)
  | None =>
      TypeError ("'>' not supported between instances of '" +:+ type_name v +:+ "' and 'float'")
  end.

(** [max(c, v)] keeps its first argument unless the second is greater;
    [min(c, v)] keeps it unless the second is smaller. *)
Definition py_max_float (c : Q) (v : pyval) : result pyval :=
  gt ← py_gt_float v c;
  mret (if gt : bool then v else PyFloat c).

Definition py_min_float (c : Q) (v : pyval) : result pyval :=
  lt ← py_lt_float v c;
  mret (if lt : bool then v else PyFloat c).

(** [float(v)] on a number.  A [str] would be parsed, but none reaches
    [float()] in the handler (see [py_min_float_num]). *)
Definition py_float (v : pyval) : result Q :=
  match as_num v with
  | Some x => Ok x
  | None =>
      TypeError ("float() argument must be a string or a real number, not '" +:+ type_name v +:+ "'")
  end.

(** [max] and [min] of two floats, with Python's preference for the first
    argument. *)
Definition float_max (a b : Q) : Q := if float_lt a b then b else a.
Definition float_min (a b : Q) : Q := if float_lt b a then b else a.

(** ** The anomaly model and the process state *)

(** The feature array handed to the model, represented by its one row: the
    eight values of the payload, in the order of the source.  The input
    validation of scikit-learn is part of the two inference calls. *)
Definition features : Type := list pyval.

(** [np.array([[...]])] builds the array before the model is touched, or
    raises (a row that holds a sequence among scalars is ragged).  Which
    rows numpy refuses, and with which exception, is numpy's. *)
Class Numpy : Type := {
  np_array_error : list pyval → option exn
}.

Definition np_array {np : Numpy} (row : list pyval) : result features :=
  match np_array_error row with
  | Some e => Raise e
  | None => Ok row
  end.

(** A fitted (or unpickled) estimator, seen through the two methods the
    handler calls; each returns the entry [[0]] of its result array. *)
Record Model : Type := {
  predict : features → result Z;
  decision_function : features → result Q
}.

Inductive log_entry : Type :=
| LogInfo (msg : string)
| LogScored (anomaly_score fee_adequacy : Q)
| LogError (msg : string).

(** The module globals that change: [tx_anomaly_model] and what [logger] has
    written. *)
Record state : Type := {
  tx_anomaly_model : option Model;
  log : list log_entry
}.

Definition logger (entry : log_entry) (st : state) : state :=
  {| tx_anomaly_model := tx_anomaly_model st; log := log st ++ [entry] |}.

Definition set_model (m : Model) (st : state) : state :=
  {| tx_anomaly_model := Some m; log := log st |}.

(** [tx_anomaly_model.predict(features)[0]]; the global is [None] until
    [load_or_create_model] has run. *)
Definition model_predict (m : option Model) (x : features) : result Z :=
  match m with
  | Some m => predict m x
  | None => AttributeError "'NoneType' object has no attribute 'predict'"
  end.

Definition model_decision_function (m : option Model) (x : features) : result Q :=
  match m with
  | Some m => decision_function m x
  | None => AttributeError "'NoneType' object has no attribute 'decision_function'"
  end.

(** ** [score_transaction] *)

(** The eight [data.get(name, default)] of the source, in order. *)
Definition feature_fields : list (string * pyval) :=
  [ ("num_inputs", PyInt 0);
    ("num_outputs", PyInt 0);
    ("total_input", PyFloat 0.0);
    ("total_output", PyFloat 0.0);
    ("fee", PyFloat 0.0);
    ("fee_rate", PyFloat 0.0);
    ("change_ratio", PyFloat 0.0);
    ("input_diversity", PyInt 0) ].

Definition extract_features (data : pyval) : result features :=
  mapM (λ '(name, dflt), py_get data name dflt) feature_fields.

(** [jsonify(body), status]: the JSON object of the response and the HTTP
    status code. *)
Definition response : Type := gmap string pyval * Z.

(** The fee part of the [try] block, from [fee_rate = data.get(...)] to
    [float(fee_adequacy)]: it runs after the model calls and shares nothing
    with them. *)
Definition fee_heuristic (data : pyval) : result Q :=
  fee_rate ← py_get data "fee_rate" (PyFloat 0.0);
  scaled ← py_mul_int fee_rate 100;
  lower ← py_max_float 0.0 scaled;
  fee_adequacy ← py_min_float 1.0 lower;
  fee ← py_get data "fee" (PyFloat 0.0);
  low ← py_lt_float fee 0.1;
  fee_adequacy ← (if low : bool then py_mul_float fee_adequacy 0.5 else mret fee_adequacy);
  py_float fee_adequacy.

(** The body of the [try] block.  [get_json] is the outcome of
    [request.get_json()]: a parsed value, or the exception Flask raised. *)
Definition score_try {np : Numpy} (st : state) (get_json : result pyval)
  : result (response * state) :=
  data ← get_json;
  if negb (truthy data) then
    mret (({[ "error" := PyStr "No JSON data provided" ]}, 400), st)
  else
    row ← extract_features data;
    x ← np_array row;
    prediction ← model_predict (tx_anomaly_model st) x;
    let anomaly_score := if prediction =? -1 then 1.0%Q else 0.0%Q in
    decision_score ← model_decision_function (tx_anomaly_model st) x;
    let normalized_score := float_max 0.0 (float_min 1.0 (0.5 - decision_score)) in
    let anomaly_score := normalized_score in
    fee_adequacy ← fee_heuristic data;
    let body : gmap string pyval :=
      <[ "anomaly_score" := PyFloat anomaly_score ]>
      (<[ "fee_adequacy" := PyFloat fee_adequacy ]>
      {[ "message" := PyStr "Transaction scored successfully" ]}) in
    mret ((body, 200), logger (LogScored anomaly_score fee_adequacy) st).

(** The handler of [POST /score/tx]: the [try] block, and [except Exception]
    turning whatever was raised into a 500 response. *)
Definition score_transaction {np : Numpy} (st : state) (get_json : result pyval)
  : response * state :=
  match score_try st get_json with
  | Ok r => r
  | Raise e =>
      (({[ "error" := PyStr (exn_str e) ]}, 500),
       logger (LogError ("Error scoring transaction: " +:+ exn_str e)) st)
  end.

(** ** [load_or_create_model] *)

Definition model_path : string := "models/tx_anomaly_model.pkl".

(** The constructor arguments of [IsolationForest(...)]. *)
Record IsolationForest : Type := {
  contamination : Q;
  random_state : Z;
  n_estimators : Z
}.

(** The three rows the new model is fitted on. *)
Definition dummy_data : list (list Q) :=
  [ [inject_Z 2; inject_Z 2; 100.0; 100.0; 1.0; 0.01; 0.95; inject_Z 1];
    [inject_Z 1; inject_Z 1; 50.0; 50.0; 0.5; 0.01; 1.0; inject_Z 1];
    [inject_Z 3; inject_Z 3; 200.0; 200.0; 2.0; 0.01; 0.9; inject_Z 1] ]%Q.

(** The estimator [load_or_create_model] constructs, named for the
    statements below. *)
Definition new_forest : IsolationForest :=
  {| contamination := 0.1; random_state := 42; n_estimators := 100 |}.

(** The library calls of the model manager, over a type [W] of states of
    the outside world (the file system).  [os_makedirs] is
    [os.makedirs(path, exist_ok=True)]; [sklearn_fit] is
    [IsolationForest(...).fit(data)], which touches no file. *)
Class Libs (W : Type) : Type := {
  os_path_exists : string → W → bool;
  joblib_load : string → W → result Model;
  os_makedirs : string → W → result W;
  joblib_dump : Model → string → W → result W;
  sklearn_fit : IsolationForest → list (list Q) → Model
}.

Section model_manager.
Context {W : Type} `{!Libs W}.

(** The outcome of the call ([Raise e] when an exception leaves the
    function), the globals and the world it leaves behind.  Nothing in
    the function catches an exception.  The global is bound to the new
    estimator and fitted in place: [m] is that one object. *)
Definition load_or_create_model (st : state) (w : W) : result () * state * W :=
  if os_path_exists model_path w then
    let st := logger (LogInfo ("Loading model from " +:+ model_path)) st in
    match joblib_load model_path w with
    | Raise e => (Raise e, st, w)
    | Ok m => (Ok (), set_model m st, w)
    end
  else
    let st := logger (LogInfo "Creating new IsolationForest model") st in
    let forest :=
      {| contamination := 0.1; random_state := 42; n_estimators := 100 |} in
    let m := sklearn_fit forest dummy_data in
    let st := set_model m st in
    match os_makedirs "models" w with
    | Raise e => (Raise e, st, w)
    | Ok w =>
        match joblib_dump m model_path w with
        | Raise e => (Raise e, st, w)
        | Ok w => (Ok (), logger (LogInfo ("Model saved to " +:+ model_path)) st, w)
        end
    end.
End model_manager.

(** ** An in-memory file system

    One instance of [Libs], to run the model manager on concrete inputs: a
    map from paths to directories (writable or not) and files (holding a
    pickled model, or bytes that do not unpickle). *)
Module MemFS.

Inductive node : Type :=
| Dir (writable : bool)
| File (pickled : option Model).

Fixpoint dirname_aux (p : string) : option string :=
  match p with
  | EmptyString => None
  | String c p' =>
      match dirname_aux p' with
      | Some d => Some (String c d)
      | None => if String.eqb (String c EmptyString) "/" then Some EmptyString else None
      end
  end.

(** [os.path.dirname]. *)
Definition dirname (p : string) : string := default "" (dirname_aux p).

Definition OSError {A} (class msg : string) : result A :=
  Raise (Exception class msg).

Definition exists_ (p : string) (w : gmap string node) : bool :=
  match w !! p with Some _ => true | None => false end.

Definition load (p : string) (w : gmap string node) : result Model :=
  match w !! p with
  | Some (File (Some m)) => Ok m
  | Some (File None) => OSError "UnpicklingError" "invalid load key"
  | Some (Dir _) => OSError "IsADirectoryError" ("Is a directory: " +:+ p)
  | None => OSError "FileNotFoundError" ("No such file or directory: " +:+ p)
  end.

Definition makedirs (p : string) (w : gmap string node) : result (gmap string node) :=
  match w !! p with
  | Some (Dir _) => Ok w
  | Some (File _) => OSError "FileExistsError" ("File exists: " +:+ p)
  | None => Ok (<[ p := Dir true ]> w)
  end.

Definition dump (m : Model) (p : string) (w : gmap string node)
  : result (gmap string node) :=
  match w !! dirname p with
  | Some (Dir true) => Ok (<[ p := File (Some m) ]> w)
  | Some (Dir false) => OSError "PermissionError" ("Permission denied: " +:+ p)
  | _ => OSError "FileNotFoundError" ("No such file or directory: " +:+ p)
  end.

(** A stand-in for training: the fitted forest calls every row normal,
    with decision score [0.1]. *)
Definition fit (_ : IsolationForest) (_ : list (list Q)) : Model :=
  {| predict := λ _, Ok 1; decision_function := λ _, Ok 0.1%Q |}.

#[global] Instance libs : Libs (gmap string node) := {|
  os_path_exists := exists_;
  joblib_load := load;
  os_makedirs := makedirs;
  joblib_dump := dump;
  sklearn_fit := fit
|}.

End MemFS.

(** ** The scores as the specification words them *)

(** [clamp(x, lo, hi)]: [lo] below [lo], [hi] above [hi], [x] in between. *)
Definition clamp (x lo hi : Q) : Q :=
  if Qlt_le_dec x lo then lo
  else if Qlt_le_dec hi x then hi
  else x.

(** "[fee_adequacy = clamp(fee_rate * 100, 0.0, 1.0)]; then if [fee < 0.1],
    halve it". *)
Definition fee_adequacy_spec (fee_rate fee : Q) : Q :=
  let c := clamp (fee_rate * 100) 0.0 1.0 in
  if Qlt_le_dec fee 0.1 then c * 0.5 else c.

(** The requests served one after the other by one process. *)
Definition serve {np : Numpy} (st : state) (requests : list (result pyval)) : state :=
  foldl (λ st get_json, (score_transaction st get_json).2) st requests.

(** The body of a successful response. *)
Definition score_body (anomaly_score fee_adequacy : Q) : gmap string pyval :=
  <[ "anomaly_score" := PyFloat anomaly_score ]>
  (<[ "fee_adequacy" := PyFloat fee_adequacy ]>
  {[ "message" := PyStr "Transaction scored successfully" ]}).

(** The model with [predict] replaced: same scores, other labels. *)
Definition with_predict (p : features → result Z) (m : Model) : Model :=
  {| predict := p; decision_function := decision_function m |}.

(** "An error for the request body is raised only when the payload itself is
    absent or unparseable, not when individual fields (including all of
    them) are missing": a payload that parsed to a JSON object is never
    answered with the 400 of the body check. *)
Definition objects_pass_body_check : Prop :=
  ∀ (np : Numpy) st d, (score_transaction st (Ok (PyDict d))).1.2 ≠ 400.



(** "A persist failure is logged but does not crash the initialization: the
    in-memory fitted model remains usable".  Persisting is attempted on the
    path without an artifact only, so that is where the sentence is read:
    the call returns, the global holds the fitted model, and the log has an
    error entry. *)
Definition persist_failure_is_survived : Prop :=
  ∀ (W : Type) (L : Libs W) (st : state) (w w1 : W) (e : exn),
    os_path_exists model_path w = false →
    os_makedirs "models" w = Ok w1 →
    joblib_dump (sklearn_fit new_forest dummy_data) model_path w1 = Raise e →
    (load_or_create_model st w).1.1 = Ok () ∧
    tx_anomaly_model (load_or_create_model st w).1.2
      = Some (sklearn_fit new_forest dummy_data) ∧
    ∃ msg, LogError msg ∈ log (load_or_create_model st w).1.2.

Definition status_of (r : response * state) : Z := r.1.2.
Definition body_of (r : response * state) : gmap string pyval := r.1.1.

(** ** Concrete inputs *)

(** A stand-in for numpy on the inputs below: a row that mixes lists with
    scalars is refused as ragged, every other row becomes an array. *)
Module SampleNumpy.

Definition is_sequence (v : pyval) : bool :=
  match v with PyList _ => true | _ => false end.

Definition ragged : exn :=
  Exception "ValueError"
    "setting an array element with a sequence. The requested array has an inhomogeneous shape after 2 dimensions. The detected shape was (1, 8) + inhomogeneous part.".

#[global] Instance numpy : Numpy := {|
  np_array_error := λ row,
    if existsb is_sequence row && negb (forallb is_sequence row)
    then Some ragged else None
|}.

End SampleNumpy.

Module Sample.

(** The request body of the docstring of [score_transaction]. *)
Definition payload : gmap string pyval :=
  list_to_map
    [ ("num_inputs", PyInt 2); ("num_outputs", PyInt 2);
      ("total_input", PyFloat 100.0); ("total_output", PyFloat 99.0);
      ("fee", PyFloat 1.0); ("fee_rate", PyFloat 0.01);
      ("change_ratio", PyFloat 0.99); ("input_diversity", PyInt 1) ].

(** The same transaction with a fee below [0.1]. *)
Definition low_fee_payload : gmap string pyval :=
  <[ "fee" := PyFloat 0.05 ]> payload.

(** A payload that names none of the eight fields. *)
Definition foreign_payload : gmap string pyval :=
  {[ "memo" := PyStr "hello" ]}.

Definition model : Model := MemFS.fit new_forest dummy_data.

(** The process before and after [load_or_create_model]. *)
Definition cold : state := {| tx_anomaly_model := None; log := [] |}.
Definition warm : state := {| tx_anomaly_model := Some model; log := [] |}.

(** File systems: nothing there; the directory there but read-only; an
    artifact that does not unpickle. *)
Definition empty_disk : gmap string MemFS.node := ∅.
Definition read_only_disk : gmap string MemFS.node :=
  {[ "models" := MemFS.Dir false ]}.
Definition corrupt_disk : gmap string MemFS.node :=
  <[ model_path := MemFS.File None ]> {[ "models" := MemFS.Dir true ]}.

End Sample.

(** ** [health], [score_peer] and the start of the process *)

(** [GET /health]: [model_loaded] is [tx_anomaly_model is not None]. *)
Definition health (st : state) : response :=
  (<[ "status" := PyStr "healthy" ]>
   (<[ "service" := PyStr "ai-scorer" ]>
   {[ "model_loaded" :=
        PyBool (match tx_anomaly_model st with Some _ => true | None => false end) ]}),
   200).

(** [POST /score/peer]: the placeholder. *)
Definition score_peer : response :=
  (<[ "reliability_score" := PyFloat 0.5 ]>
   {[ "message" := PyStr "Peer scoring not yet implemented" ]},
   200).

(** The globals when the module has been imported and nothing has run. *)
Definition initial_state : state := {| tx_anomaly_model := None; log := [] |}.

(** [int(os.getenv('PORT', 5000))].  [PORT] is the value of the environment
    variable, if set; [int_of_str] is Python's [int] on a [str]. *)
Definition port_of (int_of_str : string → result Z) (PORT : option string) : result Z :=
  match PORT with
  | None => Ok 5000
  | Some s => int_of_str s
  end.

(** The [__main__] block up to [app.run]: the globals and the port the
    server starts with, or the exception that ends the process before it
    serves anything. *)
Definition main {W : Type} `{!Libs W} (int_of_str : string → result Z)
    (PORT : option string) (w : W) : result (state * Z) * W :=
  match load_or_create_model initial_state w with
  | (Raise e, _, w) => (Raise e, w)
  | (Ok _, st, w) =>
      match port_of int_of_str PORT with
      | Raise e => (Raise e, w)
      | Ok port =>
          (Ok (logger (LogInfo ("Starting AI scorer service on port " +:+ pretty port)) st,
               port), w)
      end
  end.

(** ** More concrete inputs *)
Module Faulty.

(** A model whose [predict] rejects its input. *)
Definition no_label : Model :=
  {| predict := λ _, Raise (Exception "ValueError" "Input contains NaN.");
     decision_function := λ _, Ok 0.1%Q |}.

Definition st_no_label : state := {| tx_anomaly_model := Some no_label; log := [] |}.

(** Models with a constant decision score. *)
Definition constant (ds : Q) : Model :=
  {| predict := λ _, Ok 1; decision_function := λ _, Ok ds |}.

Definition st_constant (ds : Q) : state :=
  {| tx_anomaly_model := Some (constant ds); log := [] |}.

(** The docstring payload with [fee_rate] sent as [null]. *)
Definition null_fee_rate : gmap string pyval :=
  <[ "fee_rate" := PyNone ]> Sample.payload.

(** The docstring payload with a list where a number is expected. *)
Definition ragged_payload : gmap string pyval :=
  <[ "num_inputs" := PyList [PyInt 1; PyInt 2] ]> Sample.payload.


(** Python's [int] on the strings used below. *)
Definition int_of_str (s : string) : result Z :=
  if String.eqb s "8080" then Ok 8080
  else Raise (Exception "ValueError"
                ("invalid literal for int() with base 10: '" +:+ s +:+ "'")).

(** A disk where [models] is a regular file, and one holding an artifact
    that loads. *)
Definition models_is_file : gmap string MemFS.node :=
  {[ "models" := MemFS.File None ]}.
Definition warm_disk : gmap string MemFS.node :=
  <[ model_path := MemFS.File (Some (constant 0.3)) ]> {[ "models" := MemFS.Dir false ]}.

End Faulty.

(** * Properties *)

#[local] Open Scope Q_scope.

(** ** Floats *)

Lemma float_lt_true x y : float_lt x y = true ↔ x < y.
Proof.
  unfold float_lt. rewrite negb_true_iff, <- not_true_iff_false, Qle_bool_iff.
  split; [apply Qnot_le_lt | apply Qlt_not_le].
Qed.

Lemma float_lt_false x y : float_lt x y = false ↔ y <= x.
Proof. unfold float_lt. by rewrite negb_false_iff, Qle_bool_iff. Qed.

Lemma float_max_cases a b :
  (a < b ∧ float_max a b = b) ∨ (b <= a ∧ float_max a b = a).
Proof.
  unfold float_max. destruct (float_lt a b) eqn:H; [left | right].
  - by apply float_lt_true in H.
  - by apply float_lt_false in H.
Qed.

Lemma float_min_cases a b :
  (b < a ∧ float_min a b = b) ∨ (a <= b ∧ float_min a b = a).
Proof.
  unfold float_min. destruct (float_lt b a) eqn:H; [left | right].
  - by apply float_lt_true in H.
  - by apply float_lt_false in H.
Qed.

Lemma float_clamp_bounds x : 0 <= float_max 0.0 (float_min 1.0 x) <= 1.
Proof.
  destruct (float_min_cases 1.0 x) as [[? ->] | [? ->]];
    [destruct (float_max_cases 0.0 x) as [[? ->] | [? ->]]
    | destruct (float_max_cases 0.0 1.0) as [[? ->] | [? ->]]]; lra.
Qed.

Lemma float_clamp_spec x : float_max 0.0 (float_min 1.0 x) == clamp x 0.0 1.0.
Proof.
  unfold clamp.
  destruct (float_min_cases 1.0 x) as [[? ->] | [? ->]];
    [destruct (float_max_cases 0.0 x) as [[? ->] | [? ->]]
    | destruct (float_max_cases 0.0 1.0) as [[? ->] | [? ->]]];
    destruct (Qlt_le_dec x 0.0); try destruct (Qlt_le_dec 1.0 x); lra.
Qed.

Lemma fee_clamp_spec x :
  float_min 1.0 (float_max 0.0 x) == clamp x 0.0 1.0.
Proof.
  unfold clamp.
  destruct (float_max_cases 0.0 x) as [[? ->] | [? ->]];
    [destruct (float_min_cases 1.0 x) as [[? ->] | [? ->]]
    | destruct (float_min_cases 1.0 0.0) as [[? ->] | [? ->]]];
    destruct (Qlt_le_dec x 0.0); try destruct (Qlt_le_dec 1.0 x); lra.
Qed.

Lemma clamp_bounds x : 0 <= clamp x 0.0 1.0 <= 1.
Proof.
  unfold clamp.
  destruct (Qlt_le_dec x 0.0); [lra |]. destruct (Qlt_le_dec 1.0 x); lra.
Qed.

Lemma clamp_proper x y lo hi : x == y → clamp x lo hi == clamp y lo hi.
Proof.
  intros E. unfold clamp.
  destruct (Qlt_le_dec x lo), (Qlt_le_dec y lo); try lra;
    destruct (Qlt_le_dec hi x), (Qlt_le_dec hi y); lra.
Qed.

Lemma fee_adequacy_spec_bounds fee_rate fee :
  0 <= fee_adequacy_spec fee_rate fee <= 1.
Proof.
  unfold fee_adequacy_spec.
  pose proof (clamp_bounds (fee_rate * 100)).
  destruct (Qlt_le_dec fee 0.1); lra.
Qed.

(** ** Python operators *)

Lemma bind_Ok {A B} (m : result A) (f : A → result B) b :
  m ≫= f = Ok b → ∃ a, m = Ok a ∧ f a = Ok b.
Proof. destruct m as [a | e]; [by exists a | done]. Qed.

Lemma py_get_dict d key dflt :
  py_get (PyDict d) key dflt = Ok (default dflt (d !! key)).
Proof. done. Qed.

Lemma py_mul_int_num v k r y :
  py_mul_int v k = Ok r → as_num r = Some y →
  ∃ x, as_num v = Some x ∧ y == x * inject_Z k.
Proof.
  destruct v as [| b | n | x | s | xs | d]; simpl; intros [= <-] [= <-].
  - exists (inject_Z (Z.b2z b)). split; [done |]. by rewrite inject_Z_mult.
  - exists (inject_Z n). split; [done |]. by rewrite inject_Z_mult.
  - by exists x.
Qed.

Lemma py_max_float_num c v r :
  py_max_float c v = Ok r →
  ∃ x, as_num v = Some x ∧ as_num r = Some (float_max c x).
Proof.
  unfold py_max_float, py_gt_float, float_max.
  destruct (as_num v) as [x |] eqn:E; [| done]. simpl. intros [= <-].
  exists x. split; [done |]. by destruct (float_lt c x).
Qed.

Lemma py_min_float_num c v r :
  py_min_float c v = Ok r →
  ∃ x, as_num v = Some x ∧ as_num r = Some (float_min c x).
Proof.
  unfold py_min_float, py_lt_float, float_min.
  destruct (as_num v) as [x |] eqn:E; [| done]. simpl. intros [= <-].
  exists x. split; [done |]. by destruct (float_lt x c).
Qed.

Lemma py_lt_float_num v c b :
  py_lt_float v c = Ok b → ∃ x, as_num v = Some x ∧ b = float_lt x c.
Proof.
  unfold py_lt_float. destruct (as_num v) as [x |]; [| done].
  intros [= <-]. by exists x.
Qed.

Lemma py_mul_float_num v c r :
  py_mul_float v c = Ok r → ∃ x, as_num v = Some x ∧ r = PyFloat (x * c).
Proof.
  unfold py_mul_float. destruct (as_num v) as [x |].
  - intros [= <-]. by exists x.
  - by destruct v.
Qed.

Lemma py_float_num v x : py_float v = Ok x → as_num v = Some x.
Proof. unfold py_float. destruct (as_num v); [by intros [= ->] | done]. Qed.

(** ** The fee heuristic *)

Lemma fee_heuristic_spec d fa :
  fee_heuristic (PyDict d) = Ok fa →
  ∃ fee_rate fee,
    as_num (default (PyFloat 0.0) (d !! "fee_rate")) = Some fee_rate ∧
    as_num (default (PyFloat 0.0) (d !! "fee")) = Some fee ∧
    fa == fee_adequacy_spec fee_rate fee.
Proof.
  unfold fee_heuristic. rewrite !py_get_dict. simpl.
  intros (scaled & Hmul & H)%bind_Ok.
  apply bind_Ok in H as (lower & Hmax & H).
  apply bind_Ok in H as (capped & Hmin & H).
  apply bind_Ok in H as (low & Hlt & H).
  apply bind_Ok in H as (final & Hhalf & Hfloat).
  apply py_max_float_num in Hmax as (y & Hy & Hlower).
  apply py_min_float_num in Hmin as (y' & Hy' & Hcapped).
  rewrite Hlower in Hy'. injection Hy' as <-.
  destruct (py_mul_int_num _ _ _ _ Hmul Hy) as (fee_rate & Hrate & Escaled).
  apply py_lt_float_num in Hlt as (fee & Hfee & ->).
  exists fee_rate, fee. split_and!; [done .. |].
  apply py_float_num in Hfloat.
  assert (Ec : float_min 1.0 (float_max 0.0 y) == clamp (fee_rate * 100) 0.0 1.0).
  { rewrite fee_clamp_spec. by apply clamp_proper. }
  unfold fee_adequacy_spec.
  destruct (float_lt fee 0.1) eqn:Hlow.
  - apply float_lt_true in Hlow.
    apply py_mul_float_num in Hhalf as (z & Hz & ->).
    rewrite Hcapped in Hz. injection Hz as <-. injection Hfloat as <-.
    destruct (Qlt_le_dec fee 0.1); [| lra]. by rewrite Ec.
  - apply float_lt_false in Hlow. injection Hhalf as <-.
    rewrite Hcapped in Hfloat. injection Hfloat as <-.
    destruct (Qlt_le_dec fee 0.1); [lra | done].
Qed.

Lemma fee_heuristic_total d :
  is_Some (as_num (default (PyFloat 0.0) (d !! "fee_rate"))) →
  is_Some (as_num (default (PyFloat 0.0) (d !! "fee"))) →
  ∃ fa, fee_heuristic (PyDict d) = Ok fa.
Proof.
  unfold fee_heuristic. rewrite !py_get_dict. simpl.
  generalize (default (PyFloat 0.0) (d !! "fee_rate")) as fee_rate.
  generalize (default (PyFloat 0.0) (d !! "fee")) as fee.
  intros fee fee_rate [r Hr] [f Hf].
  destruct fee_rate as [| b | n | x | s | xs | d']; try done; simpl;
    unfold py_max_float, py_min_float, py_gt_float, py_lt_float; simpl;
    rewrite Hf; simpl.
  all: repeat match goal with
         | |- context [float_lt ?a ?b] => destruct (float_lt a b); simpl
         end; eauto.
Qed.

(** ** The handler, case by case *)

#[local] Arguments extract_features : simpl never.
#[local] Arguments fee_heuristic : simpl never.
#[local] Arguments np_array : simpl never.

Lemma np_array_Ok {np : Numpy} row x : np_array row = Ok x → x = row.
Proof. unfold np_array. destruct (np_array_error row); [done | by intros [= <-]]. Qed.

Lemma np_array_Raise {np : Numpy} row e :
  np_array row = Raise e ↔ np_array_error row = Some e.
Proof.
  unfold np_array. destruct (np_array_error row) as [e' |]; [| done].
  split; by intros [= ->].
Qed.

Lemma extract_features_dict d :
  extract_features (PyDict d) =
  Ok ((λ '(name, dflt), default dflt (d !! name)) <$> feature_fields).
Proof. reflexivity. Qed.

Lemma extract_features_Ok data x :
  extract_features data = Ok x → ∃ d, data = PyDict d.
Proof. destruct data; try done. eauto. Qed.

(** A request is scored, with status 200, exactly along one path. *)
Lemma score_transaction_200 {np : Numpy} st get_json body st' :
  score_transaction st get_json = ((body, 200%Z), st') →
  ∃ d m x label ds fa,
    get_json = Ok (PyDict d) ∧ size d ≠ 0%nat ∧
    tx_anomaly_model st = Some m ∧
    extract_features (PyDict d) = Ok x ∧
    predict m x = Ok label ∧
    decision_function m x = Ok ds ∧
    fee_heuristic (PyDict d) = Ok fa ∧
    body = score_body (float_max 0.0 (float_min 1.0 (0.5 - ds))) fa ∧
    st' = logger (LogScored (float_max 0.0 (float_min 1.0 (0.5 - ds))) fa) st.
Proof.
  unfold score_transaction, score_try.
  destruct get_json as [data | e]; simpl; [| done].
  destruct (truthy data) eqn:Htruthy; simpl; [| done].
  destruct (extract_features data) as [row | e] eqn:Hx; simpl; [| done].
  destruct (extract_features_Ok _ _ Hx) as [d ->].
  destruct (np_array row) as [x | e] eqn:Hnp; simpl; [| done].
  apply np_array_Ok in Hnp as ->.
  destruct (tx_anomaly_model st) as [m |] eqn:Hm; simpl; [| done].
  destruct (predict m row) as [label | e] eqn:Hp; simpl; [| done].
  destruct (decision_function m row) as [ds | e] eqn:Hd; simpl; [| done].
  destruct (fee_heuristic (PyDict d)) as [fa | e] eqn:Hf; simpl; [| done].
  intros [= <- <-]. exists d, m, row, label, ds, fa. split_and!; try done.
  simpl in Htruthy. intros E. by rewrite E in Htruthy.
Qed.

(** Along that path [np.array] accepted the row. *)
Lemma score_transaction_200_array {np : Numpy} st d :
  (score_transaction st (Ok (PyDict d))).1.2 = 200%Z →
  ∀ x, extract_features (PyDict d) = Ok x → np_array x = Ok x.
Proof.
  intros Hs x Hx. rewrite extract_features_dict in Hx. injection Hx as <-.
  revert Hs. unfold score_transaction, score_try. simpl.
  destruct (negb (negb (size d =? 0)%nat)); simpl; [done |].
  match goal with |- context [np_array ?row] =>
    destruct (np_array row) as [x' | e] eqn:Hnp; [| done]
  end.
  by apply np_array_Ok in Hnp as ->.
Qed.

Lemma score_transaction_scored {np : Numpy} st d m x label ds fa :
  size d ≠ 0%nat →
  tx_anomaly_model st = Some m →
  extract_features (PyDict d) = Ok x →
  np_array x = Ok x →
  predict m x = Ok label →
  decision_function m x = Ok ds →
  fee_heuristic (PyDict d) = Ok fa →
  score_transaction st (Ok (PyDict d)) =
    ((score_body (float_max 0.0 (float_min 1.0 (0.5 - ds))) fa, 200%Z),
     logger (LogScored (float_max 0.0 (float_min 1.0 (0.5 - ds))) fa) st).
Proof.
  intros Hd Hm Hx Hnp Hp Hds Hf.
  rewrite extract_features_dict in Hx. injection Hx as <-.
  unfold score_transaction, score_try. simpl in *.
  destruct (size d) eqn:E; [done |]. simpl.
  rewrite Hnp. simpl.
  rewrite Hm. simpl. rewrite Hp. simpl. rewrite Hds. simpl.
  by rewrite Hf.
Qed.

(** A payload is scored as soon as it is a non-empty object whose [fee] and
    [fee_rate], when present, are numbers, and the loaded model answers on
    its features. *)
Lemma numeric_payload_is_scored {np : Numpy} st d m x label ds :
  size d ≠ 0%nat →
  tx_anomaly_model st = Some m →
  extract_features (PyDict d) = Ok x →
  np_array x = Ok x →
  predict m x = Ok label →
  decision_function m x = Ok ds →
  is_Some (as_num (default (PyFloat 0.0) (d !! "fee_rate"))) →
  is_Some (as_num (default (PyFloat 0.0) (d !! "fee"))) →
  status_of (score_transaction st (Ok (PyDict d))) = 200%Z.
Proof.
  intros Hd Hm Hx Hnp Hp Hds Hrate Hfee.
  destruct (fee_heuristic_total d Hrate Hfee) as [fa Hfa].
  by rewrite (score_transaction_scored st d m x label ds fa).
Qed.

(** The status is 400 exactly when [get_json()] gave a falsy value. *)
Lemma score_transaction_400 {np : Numpy} st get_json :
  (score_transaction st get_json).1.2 = 400%Z ↔
  ∃ data, get_json = Ok data ∧ truthy data = false.
Proof.
  unfold score_transaction, score_try. split.
  - destruct get_json as [data | e]; simpl; [| done].
    destruct (truthy data) eqn:Htruthy; simpl; [| by eauto].
    repeat match goal with
      | |- context [match ?r ≫= _ with _ => _ end] => destruct r; simpl
      | |- context [match ?r with Ok _ => _ | Raise _ => _ end] => destruct r; simpl
      end; done.
  - intros (data & -> & Hfalsy). simpl. by rewrite Hfalsy.
Qed.

Lemma score_transaction_falsy {np : Numpy} st data :
  truthy data = false →
  score_transaction st (Ok data) =
    (({[ "error" := PyStr "No JSON data provided" ]}, 400%Z), st).
Proof. intros H. unfold score_transaction, score_try. simpl. by rewrite H. Qed.


Lemma score_transaction_200_status {np : Numpy} st get_json :
  status_of (score_transaction st get_json) = 200%Z →
  ∃ d m x label ds fa,
    get_json = Ok (PyDict d) ∧ size d ≠ 0%nat ∧
    tx_anomaly_model st = Some m ∧
    extract_features (PyDict d) = Ok x ∧
    predict m x = Ok label ∧
    decision_function m x = Ok ds ∧
    fee_heuristic (PyDict d) = Ok fa ∧
    score_transaction st get_json =
      ((score_body (float_max 0.0 (float_min 1.0 (0.5 - ds))) fa, 200%Z),
       logger (LogScored (float_max 0.0 (float_min 1.0 (0.5 - ds))) fa) st).
Proof.
  unfold status_of.
  destruct (score_transaction st get_json) as [[body status] st'] eqn:E.
  simpl. intros ->.
  apply score_transaction_200 in E
    as (d & m & x & label & ds & fa & ? & ? & ? & ? & ? & ? & ? & -> & ->).
  by exists d, m, x, label, ds, fa.
Qed.

(** The requests that are scored. *)
Lemma status_200_iff {np : Numpy} st get_json :
  status_of (score_transaction st get_json) = 200%Z ↔
  ∃ d m x label ds,
    get_json = Ok (PyDict d) ∧ size d ≠ 0%nat ∧
    tx_anomaly_model st = Some m ∧
    extract_features (PyDict d) = Ok x ∧
    np_array x = Ok x ∧
    predict m x = Ok label ∧
    decision_function m x = Ok ds ∧
    is_Some (as_num (default (PyFloat 0.0) (d !! "fee_rate"))) ∧
    is_Some (as_num (default (PyFloat 0.0) (d !! "fee"))).
Proof.
  split.
  - intros Hst.
    destruct (score_transaction_200_status _ _ Hst)
      as (d & m & x & label & ds & fa & -> & Hd & Hm & Hx & Hp & Hds & Hfee & _).
    pose proof (score_transaction_200_array st d Hst x Hx) as Hnp.
    apply fee_heuristic_spec in Hfee as (r & f & Hr & Hf & _).
    exists d, m, x, label, ds. rewrite Hr, Hf. split_and!; eauto.
  - intros (d & m & x & label & ds & -> & Hd & Hm & Hx & Hnp & Hp & Hds & Hr & Hf).
    by eapply numeric_payload_is_scored.
Qed.

Lemma score_body_anomaly a f : score_body a f !! "anomaly_score" = Some (PyFloat a).
Proof. unfold score_body. by simplify_map_eq. Qed.

Lemma score_body_fee a f : score_body a f !! "fee_adequacy" = Some (PyFloat f).
Proof. unfold score_body. by simplify_map_eq. Qed.

Lemma score_body_dom a f :
  dom (score_body a f) = ({[ "anomaly_score"; "fee_adequacy"; "message" ]} : gset string).
Proof. unfold score_body. rewrite !dom_insert_L, dom_singleton_L. set_solver. Qed.

(** ** The scores *)

(** C1: whenever a payload is scored (the response is the 200 one), the
    returned [anomaly_score] and the returned [fee_adequacy] both lie in the
    closed interval from 0 to 1. *)
Theorem scores_in_unit_interval {np : Numpy} st get_json :
  status_of (score_transaction st get_json) = 200%Z →
  ∃ a f,
    body_of (score_transaction st get_json) !! "anomaly_score" = Some (PyFloat a) ∧
    body_of (score_transaction st get_json) !! "fee_adequacy" = Some (PyFloat f) ∧
    0 <= a <= 1 ∧ 0 <= f <= 1.
Proof.
  intros (d & m & x & label & ds & fa & _ & _ & _ & _ & _ & _ & Hfee & ->)
    %score_transaction_200_status.
  exists (float_max 0.0 (float_min 1.0 (0.5 - ds))), fa. unfold body_of. simpl.
  split_and!.
  - apply score_body_anomaly.
  - apply score_body_fee.
  - apply float_clamp_bounds.
  - apply float_clamp_bounds.
  - apply fee_heuristic_spec in Hfee as (r & f & _ & _ & ->).
    apply fee_adequacy_spec_bounds.
  - apply fee_heuristic_spec in Hfee as (r & f & _ & _ & ->).
    apply fee_adequacy_spec_bounds.
Qed.

Lemma scores_in_unit_interval_witness :
  ∃ a f,
    body_of (score_transaction Sample.warm (Ok (PyDict Sample.payload)))
      !! "anomaly_score" = Some (PyFloat a) ∧
    body_of (score_transaction Sample.warm (Ok (PyDict Sample.payload)))
      !! "fee_adequacy" = Some (PyFloat f) ∧
    0 <= a <= 1 ∧ 0 <= f <= 1.
Proof.
  apply (scores_in_unit_interval Sample.warm (Ok (PyDict Sample.payload))).
  vm_compute. reflexivity.
Defined.

(** C3: whenever a payload is scored, the returned [anomaly_score] is
    [clamp(0.5 - decisionScore, 0.0, 1.0)], where [decisionScore] is what
    the model's decision function returns on the eight extracted features;
    the response holds the two scores and the message and no label, and it
    is the same whatever label [predict] returns. *)
Theorem anomaly_score_is_clamped_decision {np : Numpy} st get_json :
  status_of (score_transaction st get_json) = 200%Z →
  ∃ d m x ds a,
    get_json = Ok (PyDict d) ∧
    tx_anomaly_model st = Some m ∧
    extract_features (PyDict d) = Ok x ∧ length x = 8%nat ∧
    decision_function m x = Ok ds ∧
    body_of (score_transaction st get_json) !! "anomaly_score" = Some (PyFloat a) ∧
    a == clamp (0.5 - ds) 0.0 1.0 ∧
    dom (body_of (score_transaction st get_json))
      = ({[ "anomaly_score"; "fee_adequacy"; "message" ]} : gset string) ∧
    ∀ p label, p x = Ok label →
      (score_transaction (set_model (with_predict p m) st) get_json).1
      = (score_transaction st get_json).1.
Proof.
  intros Hst.
  destruct (score_transaction_200_status _ _ Hst)
    as (d & m & x & label & ds & fa & -> & Hd & Hm & Hx & Hp & Hds & Hfee & E).
  pose proof (score_transaction_200_array st d Hst x Hx) as Hnp.
  exists d, m, x, ds, (float_max 0.0 (float_min 1.0 (0.5 - ds))).
  rewrite E. unfold body_of. simpl.
  split_and!; [done | done | done | | done | | | |].
  - rewrite extract_features_dict in Hx. by injection Hx as <-.
  - apply score_body_anomaly.
  - apply float_clamp_spec.
  - apply score_body_dom.
  - intros p label' Hp'.
    by rewrite (score_transaction_scored (set_model (with_predict p m) st)
                  d (with_predict p m) x label' ds fa).
Qed.

Lemma anomaly_score_is_clamped_decision_witness :
  ∃ d m x ds a,
    Ok (PyDict Sample.low_fee_payload) = Ok (PyDict d) ∧
    tx_anomaly_model Sample.warm = Some m ∧
    extract_features (PyDict d) = Ok x ∧ length x = 8%nat ∧
    decision_function m x = Ok ds ∧
    body_of (score_transaction Sample.warm (Ok (PyDict Sample.low_fee_payload)))
      !! "anomaly_score" = Some (PyFloat a) ∧
    a == clamp (0.5 - ds) 0.0 1.0 ∧
    dom (body_of (score_transaction Sample.warm (Ok (PyDict Sample.low_fee_payload))))
      = ({[ "anomaly_score"; "fee_adequacy"; "message" ]} : gset string) ∧
    ∀ p label, p x = Ok label →
      (score_transaction (set_model (with_predict p m) Sample.warm)
         (Ok (PyDict Sample.low_fee_payload))).1
      = (score_transaction Sample.warm (Ok (PyDict Sample.low_fee_payload))).1.
Proof.
  apply (anomaly_score_is_clamped_decision Sample.warm
           (Ok (PyDict Sample.low_fee_payload))).
  vm_compute. reflexivity.
Defined.

(** C4: whenever a payload is scored, [fee_adequacy] is
    [clamp(fee_rate * 100, 0.0, 1.0)], multiplied by [0.5] exactly when
    [fee < 0.1]; with [fee_rate = 0.01] it is [1.0] for [fee = 1.0] and [0.5]
    for [fee = 0.05], and with [fee_rate = 0.0] it is [0.0] for every fee. *)
Theorem fee_adequacy_formula {np : Numpy} st d :
  status_of (score_transaction st (Ok (PyDict d))) = 200%Z →
  ∃ fee_rate fee fa,
    as_num (default (PyFloat 0.0) (d !! "fee_rate")) = Some fee_rate ∧
    as_num (default (PyFloat 0.0) (d !! "fee")) = Some fee ∧
    body_of (score_transaction st (Ok (PyDict d))) !! "fee_adequacy"
      = Some (PyFloat fa) ∧
    fa == (if Qlt_le_dec fee 0.1
           then clamp (fee_rate * 100) 0.0 1.0 * 0.5
           else clamp (fee_rate * 100) 0.0 1.0) ∧
    (fee_rate == 0.01 → fee == 1.0 → fa == 1.0) ∧
    (fee_rate == 0.01 → fee == 0.05 → fa == 0.5) ∧
    (fee_rate == 0.0 → fa == 0.0).
Proof.
  intros (d' & m & x & label & ds & fa & [= <-] & _ & _ & _ & _ & _ & Hfee & E)
    %score_transaction_200_status.
  destruct (fee_heuristic_spec _ _ Hfee) as (fee_rate & fee & Hrate & Hfee' & Hfa).
  exists fee_rate, fee, fa. rewrite E. unfold body_of. simpl.
  split_and!; [done | done | | done | | |].
  - apply score_body_fee.
  - rewrite Hfa. unfold fee_adequacy_spec, clamp. intros Er Ef.
    repeat match goal with |- context [Qlt_le_dec ?a ?b] =>
      destruct (Qlt_le_dec a b) end; lra.
  - rewrite Hfa. unfold fee_adequacy_spec, clamp. intros Er Ef.
    repeat match goal with |- context [Qlt_le_dec ?a ?b] =>
      destruct (Qlt_le_dec a b) end; lra.
  - rewrite Hfa. unfold fee_adequacy_spec, clamp. intros Er.
    repeat match goal with |- context [Qlt_le_dec ?a ?b] =>
      destruct (Qlt_le_dec a b) end; lra.
Qed.

Lemma fee_adequacy_formula_witness :
  ∃ fee_rate fee fa,
    as_num (default (PyFloat 0.0) (Sample.low_fee_payload !! "fee_rate")) = Some fee_rate ∧
    as_num (default (PyFloat 0.0) (Sample.low_fee_payload !! "fee")) = Some fee ∧
    body_of (score_transaction Sample.warm (Ok (PyDict Sample.low_fee_payload)))
      !! "fee_adequacy" = Some (PyFloat fa) ∧
    fa == (if Qlt_le_dec fee 0.1
           then clamp (fee_rate * 100) 0.0 1.0 * 0.5
           else clamp (fee_rate * 100) 0.0 1.0) ∧
    (fee_rate == 0.01 → fee == 1.0 → fa == 1.0) ∧
    (fee_rate == 0.01 → fee == 0.05 → fa == 0.5) ∧
    (fee_rate == 0.0 → fa == 0.0).
Proof.
  apply (fee_adequacy_formula Sample.warm Sample.low_fee_payload).
  vm_compute. reflexivity.
Defined.

(** C10: two scored payloads that agree on [fee] and [fee_rate] get the
    same [fee_adequacy], whatever their other fields and whatever the two
    models and their outputs are. *)
Theorem fee_adequacy_depends_on_fee_fields {np : Numpy} st1 st2 d1 d2 :
  d1 !! "fee" = d2 !! "fee" →
  d1 !! "fee_rate" = d2 !! "fee_rate" →
  status_of (score_transaction st1 (Ok (PyDict d1))) = 200%Z →
  status_of (score_transaction st2 (Ok (PyDict d2))) = 200%Z →
  body_of (score_transaction st1 (Ok (PyDict d1))) !! "fee_adequacy"
  = body_of (score_transaction st2 (Ok (PyDict d2))) !! "fee_adequacy".
Proof.
  intros Efee Erate
    (? & m1 & x1 & l1 & ds1 & fa1 & [= <-] & _ & _ & _ & _ & _ & H1 & ->)
      %score_transaction_200_status
    (? & m2 & x2 & l2 & ds2 & fa2 & [= <-] & _ & _ & _ & _ & _ & H2 & ->)
      %score_transaction_200_status.
  unfold body_of. simpl. rewrite !score_body_fee.
  unfold fee_heuristic in H1, H2. rewrite !py_get_dict in H1, H2.
  rewrite Efee, Erate in H1. rewrite H1 in H2. by injection H2 as <-.
Qed.

Lemma fee_adequacy_depends_on_fee_fields_witness :
  body_of (score_transaction Sample.warm (Ok (PyDict Sample.low_fee_payload)))
    !! "fee_adequacy"
  = body_of (score_transaction
               {| tx_anomaly_model := Some {| predict := λ _, Ok (-1)%Z;
                                              decision_function := λ _, Ok (-0.3) |};
                  log := [LogInfo "other process"] |}
               (Ok (PyDict (<[ "total_input" := PyInt 7 ]>
                            (<[ "memo" := PyStr "x" ]> Sample.low_fee_payload)))))
    !! "fee_adequacy".
Proof.
  apply fee_adequacy_depends_on_fee_fields; vm_compute; reflexivity.
Defined.

(** ** The response envelope *)



(** ** Requests do not interfere *)

Lemma score_transaction_model {np : Numpy} st get_json :
  tx_anomaly_model (score_transaction st get_json).2 = tx_anomaly_model st.
Proof.
  unfold score_transaction.
  destruct (score_try st get_json) as [[r st'] | e] eqn:H; [| done].
  unfold score_try in H. apply bind_Ok in H as (data & _ & H).
  destruct (truthy data); simpl in H.
  - repeat (apply bind_Ok in H as (? & _ & H)). by injection H as <- <-.
  - by injection H as <- <-.
Qed.

Lemma score_transaction_response {np : Numpy} st1 st2 get_json :
  tx_anomaly_model st1 = tx_anomaly_model st2 →
  (score_transaction st1 get_json).1 = (score_transaction st2 get_json).1.
Proof.
  intros E. unfold score_transaction, score_try. rewrite E.
  destruct get_json as [data | e]; simpl; [| done].
  destruct (truthy data); simpl; [| done].
  destruct (extract_features data) as [row | e]; simpl; [| done].
  destruct (np_array row) as [x | e]; simpl; [| done].
  destruct (model_predict (tx_anomaly_model st2) x); simpl; [| done].
  destruct (model_decision_function (tx_anomaly_model st2) x); simpl; [| done].
  by destruct (fee_heuristic data).
Qed.

Lemma serve_model {np : Numpy} st requests :
  tx_anomaly_model (serve st requests) = tx_anomaly_model st.
Proof.
  revert st. induction requests as [| r requests IH]; intros st; [done |].
  unfold serve in *. simpl. rewrite IH. apply score_transaction_model.
Qed.

(** C9: the response to a request is the one the loaded model gives to its
    payload, whatever requests the process served before it; so two requests
    with the same payload get the same response, and serving leaves the
    model as it was. *)
Theorem responses_are_repeatable {np : Numpy} st earlier get_json :
  (score_transaction (serve st earlier) get_json).1
    = (score_transaction st get_json).1 ∧
  (score_transaction (score_transaction st get_json).2 get_json).1
    = (score_transaction st get_json).1 ∧
  tx_anomaly_model (serve st (earlier ++ [get_json])) = tx_anomaly_model st.
Proof.
  split_and!.
  - apply score_transaction_response, serve_model.
  - apply score_transaction_response, score_transaction_model.
  - apply serve_model.
Qed.

(** ** Missing fields *)

Lemma feature_fields_functional name dflt dflt' :
  (name, dflt) ∈ feature_fields → (name, dflt') ∈ feature_fields → dflt = dflt'.
Proof.
  intros H H'. apply list_elem_of_In in H, H'. simpl in H, H'.
  repeat match goal with H : _ ∨ _ |- _ => destruct H end;
    by simplify_eq.
Qed.

Lemma feature_default_zero name dflt :
  (name, dflt) ∈ feature_fields → ∃ z, as_num dflt = Some z ∧ z == 0.
Proof.
  intros H. apply list_elem_of_In in H. simpl in H.
  repeat match goal with H : _ ∨ _ |- _ => destruct H end;
    simplify_eq; try done; (eexists; split; [reflexivity | reflexivity]).
Qed.

Lemma lookup_insert_default (d : gmap string pyval) name dflt k dk :
  (name, dflt) ∈ feature_fields → (k, dk) ∈ feature_fields →
  d !! name = None →
  default dk (<[ name := dflt ]> d !! k) = default dk (d !! k).
Proof.
  intros Hn Hk Hnone. destruct (decide (name = k)) as [<- | Hne].
  - rewrite lookup_insert_eq, Hnone. simpl. eapply feature_fields_functional; eauto.
  - by rewrite lookup_insert_ne.
Qed.

(** The handler sees a payload through its emptiness and its eight fields. *)
Lemma score_transaction_ext {np : Numpy} st d1 d2 :
  (size d1 =? 0)%nat = (size d2 =? 0)%nat →
  (∀ k dk, (k, dk) ∈ feature_fields →
           default dk (d1 !! k) = default dk (d2 !! k)) →
  score_transaction st (Ok (PyDict d1)) = score_transaction st (Ok (PyDict d2)).
Proof.
  intros Hsize Hfields.
  assert (Hx : extract_features (PyDict d1) = extract_features (PyDict d2)).
  { rewrite !extract_features_dict. f_equal.
    apply list_fmap_ext. intros i [k dk] Hi. apply Hfields.
    by eapply list_elem_of_lookup_2. }
  assert (Hf : fee_heuristic (PyDict d1) = fee_heuristic (PyDict d2)).
  { unfold fee_heuristic. rewrite !py_get_dict.
    rewrite (Hfields "fee_rate" (PyFloat 0.0)), (Hfields "fee" (PyFloat 0.0));
      [done | |]; unfold feature_fields; set_solver. }
  rewrite !extract_features_dict in Hx. injection Hx as Hx.
  unfold score_transaction, score_try. simpl in *. rewrite Hsize, Hf.
  by repeat match goal with
       | H : default _ _ = default _ _ |- _ => rewrite H; clear H
       end.
Qed.

(** C2, as it holds: in a payload that is not empty, a field among the
    eight that is missing is read as its default, the number 0; extraction
    raises nothing; the response is the one of the payload with that field
    set to 0; and the status is not 400.  The 400 of the body check is
    returned exactly when [get_json()] gives a falsy value: no payload, or
    an empty one. *)
Theorem missing_field_defaults_to_zero {np : Numpy} st d name dflt :
  (name, dflt) ∈ feature_fields →
  d !! name = None →
  size d ≠ 0%nat →
  (∃ z, as_num dflt = Some z ∧ z == 0) ∧
  (∃ x i, extract_features (PyDict d) = Ok x ∧
          feature_fields !! i = Some (name, dflt) ∧ x !! i = Some dflt) ∧
  score_transaction st (Ok (PyDict (<[ name := dflt ]> d)))
    = score_transaction st (Ok (PyDict d)) ∧
  status_of (score_transaction st (Ok (PyDict d))) ≠ 400%Z ∧
  (∀ get_json,
     status_of (score_transaction st get_json) = 400%Z ↔
     ∃ data, get_json = Ok data ∧ truthy data = false).
Proof.
  intros Hin Hnone Hsize. split_and!.
  - by eapply feature_default_zero.
  - apply list_elem_of_lookup_1 in Hin as [i Hi].
    exists ((λ '(name, dflt), default dflt (d !! name)) <$> feature_fields), i.
    split_and!; [apply extract_features_dict | done |].
    unfold features. rewrite list_lookup_fmap, Hi. simpl. by rewrite Hnone.
  - apply score_transaction_ext.
    + rewrite map_size_insert_None by done.
      destruct (size d); [done | reflexivity].
    + intros k dk Hk. by eapply lookup_insert_default.
  - intros (data & [= <-] & Hfalsy)%score_transaction_400.
    simpl in Hfalsy. destruct (size d); [done | discriminate].
  - intros get_json. apply score_transaction_400.
Qed.

Lemma missing_field_defaults_to_zero_witness :
  (∃ z, as_num (PyFloat 0.0) = Some z ∧ z == 0) ∧
  (∃ x i, extract_features (PyDict Sample.foreign_payload) = Ok x ∧
          feature_fields !! i = Some ("fee_rate", PyFloat 0.0) ∧
          x !! i = Some (PyFloat 0.0)) ∧
  score_transaction Sample.warm
      (Ok (PyDict (<[ "fee_rate" := PyFloat 0.0 ]> Sample.foreign_payload)))
    = score_transaction Sample.warm (Ok (PyDict Sample.foreign_payload)) ∧
  status_of (score_transaction Sample.warm (Ok (PyDict Sample.foreign_payload)))
    ≠ 400%Z ∧
  (∀ get_json,
     status_of (score_transaction Sample.warm get_json) = 400%Z ↔
     ∃ data, get_json = Ok data ∧ truthy data = false).
Proof.
  apply (missing_field_defaults_to_zero Sample.warm Sample.foreign_payload
           "fee_rate" (PyFloat 0.0)).
  - unfold feature_fields. set_solver.
  - reflexivity.
  - vm_compute. discriminate.
Defined.

(** C2, as stated, fails on the empty object: all eight fields are missing
    from it, it parsed, and the answer is the 400 of the body check. *)
Lemma empty_object_fails_body_check :
  (∀ name dflt, (name, dflt) ∈ feature_fields →
     (∅ : gmap string pyval) !! name = None) ∧
  score_transaction Sample.warm (Ok (PyDict ∅))
    = (({[ "error" := PyStr "No JSON data provided" ]}, 400%Z), Sample.warm) ∧
  ¬ objects_pass_body_check.
Proof.
  split_and!; [done | reflexivity |].
  intros H. by apply (H SampleNumpy.numpy Sample.warm ∅).
Qed.

(** ** The model manager *)

Section model_manager_properties.
Context {W : Type} `{!Libs W}.

(** C6: without an artifact at [model_path], initialization builds an
    [IsolationForest] with contamination 0.1, 100 estimators and the seed
    42 ([new_forest]), fits it on the three rows of [dummy_data], makes it the process
    model, creates the directory [models] if needed and dumps the fitted
    model at [model_path]. *)
Theorem cold_start_fits_and_persists st w w1 w2 :
  os_path_exists model_path w = false →
  os_makedirs "models" w = Ok w1 →
  joblib_dump (sklearn_fit new_forest dummy_data) model_path w1 = Ok w2 →
  load_or_create_model st w =
    (Ok (),
     logger (LogInfo ("Model saved to " +:+ model_path))
       (set_model (sklearn_fit new_forest dummy_data) (logger (LogInfo "Creating new IsolationForest model") st)),
     w2) ∧
  tx_anomaly_model (load_or_create_model st w).1.2 = Some (sklearn_fit new_forest dummy_data) ∧
  (contamination new_forest == 0.1 ∧ n_estimators new_forest = 100%Z ∧
   random_state new_forest = 42%Z) ∧
  length dummy_data = 3%nat ∧
  Forall (λ row, length row = length feature_fields) dummy_data.
Proof.
  intros Hexists Hmk Hdump.
  assert (E : load_or_create_model st w =
    (Ok (),
     logger (LogInfo ("Model saved to " +:+ model_path))
       (set_model (sklearn_fit new_forest dummy_data) (logger (LogInfo "Creating new IsolationForest model") st)),
     w2)).
  { unfold load_or_create_model, new_forest in *. rewrite Hexists, Hmk. simpl.
    by rewrite Hdump. }
  split_and!; [done | by rewrite E | done .. | by repeat constructor].
Qed.

(** C7, as it holds: without an artifact, when dumping the new model
    fails, the exception leaves [load_or_create_model]; the fitted model
    is already the process model, and the log has the entry of the
    creation and nothing about the failure. *)
Theorem persist_failure_propagates st w w1 e :
  os_path_exists model_path w = false →
  os_makedirs "models" w = Ok w1 →
  joblib_dump (sklearn_fit new_forest dummy_data) model_path w1 = Raise e →
  load_or_create_model st w =
    (Raise e,
     set_model (sklearn_fit new_forest dummy_data) (logger (LogInfo "Creating new IsolationForest model") st),
     w1) ∧
  tx_anomaly_model (load_or_create_model st w).1.2 = Some (sklearn_fit new_forest dummy_data) ∧
  log (load_or_create_model st w).1.2
    = log st ++ [LogInfo "Creating new IsolationForest model"].
Proof.
  intros Hexists Hmk Hdump.
  assert (E : load_or_create_model st w =
    (Raise e,
     set_model (sklearn_fit new_forest dummy_data) (logger (LogInfo "Creating new IsolationForest model") st),
     w1)).
  { unfold load_or_create_model, new_forest in *. rewrite Hexists, Hmk. simpl.
    by rewrite Hdump. }
  split_and!; [done | by rewrite E | by rewrite E].
Qed.

(** C8: with an artifact at [model_path] that does not load, the
    exception of [joblib.load] leaves [load_or_create_model]: no model is
    created in its place, the process model and the files stay as they
    were. *)
Theorem load_failure_propagates st w e :
  os_path_exists model_path w = true →
  joblib_load model_path w = Raise e →
  load_or_create_model st w =
    (Raise e, logger (LogInfo ("Loading model from " +:+ model_path)) st, w) ∧
  tx_anomaly_model (load_or_create_model st w).1.2 = tx_anomaly_model st.
Proof.
  intros Hexists Hload.
  assert (E : load_or_create_model st w =
    (Raise e, logger (LogInfo ("Loading model from " +:+ model_path)) st, w)).
  { unfold load_or_create_model. by rewrite Hexists, Hload. }
  split; [done | by rewrite E].
Qed.

(** A warm start: the artifact is loaded and becomes the process model. *)
Lemma warm_start_loads st w m :
  os_path_exists model_path w = true →
  joblib_load model_path w = Ok m →
  load_or_create_model st w =
    (Ok (), set_model m (logger (LogInfo ("Loading model from " +:+ model_path)) st), w).
Proof.
  intros Hexists Hload. unfold load_or_create_model. by rewrite Hexists, Hload.
Qed.
End model_manager_properties.

(** *** On the in-memory file system *)

Lemma cold_start_fits_and_persists_witness :
  load_or_create_model Sample.cold Sample.empty_disk =
    (Ok (),
     logger (LogInfo ("Model saved to " +:+ model_path))
       (set_model Sample.model
          (logger (LogInfo "Creating new IsolationForest model") Sample.cold)),
     <[ model_path := MemFS.File (Some Sample.model) ]>
       {[ "models" := MemFS.Dir true ]}) ∧
  tx_anomaly_model (load_or_create_model Sample.cold Sample.empty_disk).1.2
    = Some Sample.model ∧
  (contamination new_forest == 0.1 ∧ n_estimators new_forest = 100%Z ∧
   random_state new_forest = 42%Z) ∧
  length dummy_data = 3%nat ∧
  Forall (λ row, length row = length feature_fields) dummy_data.
Proof.
  exact (cold_start_fits_and_persists Sample.cold Sample.empty_disk
           {[ "models" := MemFS.Dir true ]}
           (<[ model_path := MemFS.File (Some Sample.model) ]>
              {[ "models" := MemFS.Dir true ]})
           eq_refl eq_refl eq_refl).
Defined.

Lemma persist_failure_propagates_witness :
  load_or_create_model Sample.cold Sample.read_only_disk =
    (Raise (Exception "PermissionError" ("Permission denied: " +:+ model_path)),
     set_model Sample.model
       (logger (LogInfo "Creating new IsolationForest model") Sample.cold),
     Sample.read_only_disk) ∧
  tx_anomaly_model (load_or_create_model Sample.cold Sample.read_only_disk).1.2
    = Some Sample.model ∧
  log (load_or_create_model Sample.cold Sample.read_only_disk).1.2
    = log Sample.cold ++ [LogInfo "Creating new IsolationForest model"].
Proof.
  exact (persist_failure_propagates Sample.cold Sample.read_only_disk
           Sample.read_only_disk
           (Exception "PermissionError" ("Permission denied: " +:+ model_path))
           eq_refl eq_refl eq_refl).
Defined.

(** C7, as stated, fails where the directory [models] exists and is
    read-only: the dump raises [PermissionError], the call does not return,
    and the log has no error entry. *)
Lemma persist_failure_crashes_startup :
  (load_or_create_model Sample.cold Sample.read_only_disk).1.1
    = Raise (Exception "PermissionError" ("Permission denied: " +:+ model_path)) ∧
  log (load_or_create_model Sample.cold Sample.read_only_disk).1.2
    = [LogInfo "Creating new IsolationForest model"] ∧
  ¬ persist_failure_is_survived.
Proof.
  split_and!; [reflexivity | reflexivity |].
  intros H.
  destruct (H _ MemFS.libs Sample.cold Sample.read_only_disk Sample.read_only_disk
              (Exception "PermissionError" ("Permission denied: " +:+ model_path)))
    as [Hreturns _]; [reflexivity .. |].
  discriminate Hreturns.
Qed.

Lemma load_failure_propagates_witness :
  load_or_create_model Sample.cold Sample.corrupt_disk =
    (Raise (Exception "UnpicklingError" "invalid load key"),
     logger (LogInfo ("Loading model from " +:+ model_path)) Sample.cold,
     Sample.corrupt_disk) ∧
  tx_anomaly_model (load_or_create_model Sample.cold Sample.corrupt_disk).1.2
    = tx_anomaly_model Sample.cold.
Proof.
  exact (load_failure_propagates Sample.cold Sample.corrupt_disk
           (Exception "UnpicklingError" "invalid load key")
           eq_refl eq_refl).
Defined.

Example dirname_model_path : MemFS.dirname model_path = "models".
Proof. reflexivity. Qed.

(** A restart after a cold start finds the artifact and loads the model that
    was dumped. *)
Example restart_loads_the_persisted_model :
  let first := load_or_create_model Sample.cold Sample.empty_disk in
  let second := load_or_create_model Sample.cold first.2 in
  second.1.1 = Ok () ∧
  tx_anomaly_model second.1.2 = tx_anomaly_model first.1.2 ∧
  second.2 = first.2.
Proof. split_and!; reflexivity. Qed.

(** The fee examples of the specification, run through the handler. *)
Example fee_adequacy_examples :
  body_of (score_transaction Sample.warm (Ok (PyDict Sample.payload)))
    !! "fee_adequacy" = Some (PyFloat 1.0) ∧
  body_of (score_transaction Sample.warm (Ok (PyDict Sample.low_fee_payload)))
    !! "fee_adequacy" = Some (PyFloat (1.0 * 0.5)) ∧
  body_of (score_transaction Sample.warm
             (Ok (PyDict (<[ "fee_rate" := PyFloat 0.0 ]> Sample.payload))))
    !! "fee_adequacy" = Some (PyFloat 0.0) ∧
  body_of (score_transaction Sample.warm
             (Ok (PyDict (<[ "fee_rate" := PyFloat 0.0 ]> Sample.low_fee_payload))))
    !! "fee_adequacy" = Some (PyFloat (0.0 * 0.5)).
Proof. split_and!; reflexivity. Qed.

(** A request before the model is loaded is answered with a 500. *)
Example scoring_without_model :
  (score_transaction Sample.cold (Ok (PyDict Sample.payload))).1
  = ({[ "error" := PyStr "'NoneType' object has no attribute 'predict'" ]}, 500%Z).
Proof. reflexivity. Qed.

(** An exception of [get_json()] is answered with a 500 as well. *)
Example scoring_unparseable_body {np : Numpy} st e :
  (score_transaction st (Raise e)).1 = ({[ "error" := PyStr (exn_str e) ]}, 500%Z).
Proof. reflexivity. Qed.

(** * Further properties of the service *)

(** ** Which requests are scored *)

(** A request is scored, with status 200, exactly when the payload is a
    non-empty object, [np.array] builds the array of its features, a model
    is loaded and answers both inference calls on it, and [fee] and
    [fee_rate] are numbers or missing. *)
Theorem scored_iff {np : Numpy} st get_json :
  status_of (score_transaction st get_json) = 200%Z ↔
  ∃ d m x label ds,
    get_json = Ok (PyDict d) ∧ size d ≠ 0%nat ∧
    tx_anomaly_model st = Some m ∧
    extract_features (PyDict d) = Ok x ∧
    np_array x = Ok x ∧
    predict m x = Ok label ∧
    decision_function m x = Ok ds ∧
    is_Some (as_num (default (PyFloat 0.0) (d !! "fee_rate"))) ∧
    is_Some (as_num (default (PyFloat 0.0) (d !! "fee"))).
Proof. apply status_200_iff. Qed.

(** A payload that is truthy and not an object (an array, a string, a
    non-zero number, [true]) is answered with a 500 whose text is the
    [AttributeError] of [data.get], and the error is logged. *)
Theorem non_object_payload_is_500 {np : Numpy} st data :
  truthy data = true →
  (∀ d, data ≠ PyDict d) →
  score_transaction st (Ok data) =
    (({[ "error" :=
           PyStr ("'" +:+ type_name data +:+ "' object has no attribute 'get'") ]},
      500%Z),
     logger (LogError ("Error scoring transaction: " +:+
                       "'" +:+ type_name data +:+ "' object has no attribute 'get'")) st).
Proof.
  intros Htruthy Hnot. unfold score_transaction, score_try. simpl.
  rewrite Htruthy. simpl.
  destruct data as [| b | n | x | s | xs | d]; try reflexivity.
  by destruct (Hnot d).
Qed.

Lemma non_object_payload_is_500_witness :
  score_transaction Sample.warm (Ok (PyList [PyInt 1])) =
    (({[ "error" := PyStr "'list' object has no attribute 'get'" ]}, 500%Z),
     logger (LogError "Error scoring transaction: 'list' object has no attribute 'get'")
       Sample.warm).
Proof.
  exact (non_object_payload_is_500 Sample.warm (PyList [PyInt 1]) eq_refl
           (λ d H, eq_ind (PyList [PyInt 1])
                     (λ v, match v with PyList _ => True | _ => False end)
                     I (PyDict d) H)).
Defined.

(** The label is not returned, but computing it can fail the request: once
    [np.array] has built the array, when [predict] raises, the answer is a 500 with that exception's text,
    whatever [decision_function] would return; when [predict] answers and
    [decision_function] raises, the 500 carries the latter's text. *)
Theorem model_errors_are_500 {np : Numpy} st d m x :
  size d ≠ 0%nat →
  tx_anomaly_model st = Some m →
  extract_features (PyDict d) = Ok x →
  np_array x = Ok x →
  (∀ e, predict m x = Raise e →
     (score_transaction st (Ok (PyDict d))).1
       = ({[ "error" := PyStr (exn_str e) ]}, 500%Z)) ∧
  (∀ label e, predict m x = Ok label → decision_function m x = Raise e →
     (score_transaction st (Ok (PyDict d))).1
       = ({[ "error" := PyStr (exn_str e) ]}, 500%Z)).
Proof.
  intros Hd Hm Hx Hnp.
  rewrite extract_features_dict in Hx. injection Hx as <-.
  split; [intros e Hp | intros label e Hp Hds];
    unfold score_transaction, score_try; simpl in *;
    (destruct (size d); [done |]); simpl;
    rewrite Hnp; simpl; rewrite Hm; simpl; rewrite Hp; simpl; [done |].
  by rewrite Hds.
Qed.

Lemma model_errors_are_500_witness :
  (∀ e, predict Faulty.no_label
          [PyInt 2; PyInt 2; PyFloat 100.0; PyFloat 99.0; PyFloat 1.0;
           PyFloat 0.01; PyFloat 0.99; PyInt 1] = Raise e →
     (score_transaction Faulty.st_no_label (Ok (PyDict Sample.payload))).1
       = ({[ "error" := PyStr (exn_str e) ]}, 500%Z)) ∧
  (∀ label e,
     predict Faulty.no_label
       [PyInt 2; PyInt 2; PyFloat 100.0; PyFloat 99.0; PyFloat 1.0;
        PyFloat 0.01; PyFloat 0.99; PyInt 1] = Ok label →
     decision_function Faulty.no_label
       [PyInt 2; PyInt 2; PyFloat 100.0; PyFloat 99.0; PyFloat 1.0;
        PyFloat 0.01; PyFloat 0.99; PyInt 1] = Raise e →
     (score_transaction Faulty.st_no_label (Ok (PyDict Sample.payload))).1
       = ({[ "error" := PyStr (exn_str e) ]}, 500%Z)).
Proof.
  apply (model_errors_are_500 Faulty.st_no_label Sample.payload Faulty.no_label).
  - vm_compute. discriminate.
  - reflexivity.
  - reflexivity.
  - reflexivity.
Defined.

(** A field sent as [null] is not a missing field: with [fee_rate] or [fee]
    present and [null], a non-empty payload that numpy and the model accept is
    answered with the 500 of the [TypeError], never scored. *)
Theorem null_fee_field_is_500 {np : Numpy} st d m x label ds :
  tx_anomaly_model st = Some m →
  extract_features (PyDict d) = Ok x →
  np_array x = Ok x →
  predict m x = Ok label →
  decision_function m x = Ok ds →
  (d !! "fee_rate" = Some PyNone →
     (score_transaction st (Ok (PyDict d))).1
       = ({[ "error" := PyStr "unsupported operand type(s) for *: 'NoneType' and 'int'" ]},
          500%Z)) ∧
  (d !! "fee" = Some PyNone →
   is_Some (as_num (default (PyFloat 0.0) (d !! "fee_rate"))) →
     (score_transaction st (Ok (PyDict d))).1
       = ({[ "error" :=
              PyStr "'<' not supported between instances of 'NoneType' and 'float'" ]},
          500%Z)).
Proof.
  intros Hm Hx Hnp Hp Hds.
  rewrite extract_features_dict in Hx. injection Hx as <-.
  assert (Hsize : ∀ k, d !! k = Some PyNone → (size d =? 0)%nat = false).
  { intros k Hk. destruct (size d) eqn:E; [| done].
    apply map_size_empty_iff in E. by rewrite E in Hk. }
  split.
  - intros Hnull. unfold score_transaction, score_try. simpl in *.
    rewrite (Hsize _ Hnull). simpl. rewrite Hnp. simpl. rewrite Hm. simpl. rewrite Hp. simpl.
    rewrite Hds. simpl. unfold fee_heuristic. rewrite !py_get_dict, Hnull. done.
  - intros Hnull [r Hr]. unfold score_transaction, score_try. simpl in *.
    rewrite (Hsize _ Hnull). simpl. rewrite Hnp. simpl. rewrite Hm. simpl. rewrite Hp. simpl.
    rewrite Hds. simpl. unfold fee_heuristic. rewrite !py_get_dict, Hnull.
    simpl.
    destruct (default (PyFloat 0.0) (d !! "fee_rate")) as [| b | n | q | s | xs | d'];
      try done; simpl;
      unfold py_max_float, py_min_float, py_gt_float, py_lt_float; simpl;
      repeat match goal with
        | |- context [float_lt ?a ?b] => destruct (float_lt a b); simpl
        end; done.
Qed.

Lemma null_fee_field_is_500_witness :
  (Faulty.null_fee_rate !! "fee_rate" = Some PyNone →
     (score_transaction Sample.warm (Ok (PyDict Faulty.null_fee_rate))).1
       = ({[ "error" := PyStr "unsupported operand type(s) for *: 'NoneType' and 'int'" ]},
          500%Z)) ∧
  (Faulty.null_fee_rate !! "fee" = Some PyNone →
   is_Some (as_num (default (PyFloat 0.0) (Faulty.null_fee_rate !! "fee_rate"))) →
     (score_transaction Sample.warm (Ok (PyDict Faulty.null_fee_rate))).1
       = ({[ "error" :=
              PyStr "'<' not supported between instances of 'NoneType' and 'float'" ]},
          500%Z)).
Proof.
  exact (null_fee_field_is_500 Sample.warm Faulty.null_fee_rate Sample.model
           [PyInt 2; PyInt 2; PyFloat 100.0; PyFloat 99.0; PyFloat 1.0;
            PyNone; PyFloat 0.99; PyInt 1] 1%Z 0.1
           eq_refl eq_refl eq_refl eq_refl eq_refl).
Defined.

(** ** The log *)

Lemma score_transaction_log_cases {np : Numpy} st get_json :
  (∃ a f, (score_transaction st get_json).1 = (score_body a f, 200%Z) ∧
          log (score_transaction st get_json).2 = log st ++ [LogScored a f]) ∨
  ((score_transaction st get_json).1.2 = 400%Z ∧
   (score_transaction st get_json).2 = st) ∨
  (∃ msg, (score_transaction st get_json).1 = ({[ "error" := PyStr msg ]}, 500%Z) ∧
          log (score_transaction st get_json).2
            = log st ++ [LogError ("Error scoring transaction: " +:+ msg)]).
Proof.
  unfold score_transaction.
  destruct (score_try st get_json) as [[r st'] | e] eqn:H;
    [| right; right; by exists (exn_str e)].
  unfold score_try in H. apply bind_Ok in H as (data & _ & H).
  destruct (truthy data); simpl in H.
  - left. repeat (apply bind_Ok in H as (? & _ & H)).
    injection H as <- <-. eauto.
  - right; left. by injection H as <- <-.
Qed.

(** Each request leaves at most one log entry, and it tells the response:
    the two scores of a 200, the error text of a 500; a 400 is not
    logged. *)
Theorem log_entry_matches_response {np : Numpy} st get_json :
  (∃ a f, (score_transaction st get_json).1 = (score_body a f, 200%Z) ∧
          log (score_transaction st get_json).2 = log st ++ [LogScored a f]) ∨
  ((score_transaction st get_json).1.2 = 400%Z ∧
   (score_transaction st get_json).2 = st) ∨
  (∃ msg, (score_transaction st get_json).1 = ({[ "error" := PyStr msg ]}, 500%Z) ∧
          log (score_transaction st get_json).2
            = log st ++ [LogError ("Error scoring transaction: " +:+ msg)]).
Proof. apply score_transaction_log_cases. Qed.

Lemma score_transaction_log {np : Numpy} st get_json :
  ∃ entries, log (score_transaction st get_json).2 = log st ++ entries ∧
             (length entries ≤ 1)%nat.
Proof.
  destruct (score_transaction_log_cases st get_json)
    as [(a & f & _ & ->) | [[_ ->] | (msg & _ & ->)]].
  - eexists. split; [done | simpl; lia].
  - exists []. split; [by rewrite app_nil_r | simpl; lia].
  - eexists. split; [done | simpl; lia].
Qed.

(** Serving requests only appends to the log, at most one entry per
    request. *)
Theorem serve_extends_log {np : Numpy} st requests :
  log st `prefix_of` log (serve st requests) ∧
  (length (log (serve st requests)) ≤ length (log st) + length requests)%nat.
Proof.
  revert st. induction requests as [| r requests IH]; intros st.
  - split; [done | simpl; lia].
  - unfold serve in *. simpl.
    destruct (IH (score_transaction st r).2) as [Hprefix Hlen].
    destruct (score_transaction_log st r) as (entries & E & Hentries).
    rewrite E in Hprefix, Hlen. rewrite length_app in Hlen. split.
    + etrans; [| exact Hprefix]. by apply prefix_app_r.
    + lia.
Qed.

(** ** Shape of the two scores *)

Lemma clamp_mono x y : x <= y → clamp x 0.0 1.0 <= clamp y 0.0 1.0.
Proof.
  intros H. unfold clamp.
  destruct (Qlt_le_dec x 0.0), (Qlt_le_dec y 0.0); try lra;
    destruct (Qlt_le_dec 1.0 x), (Qlt_le_dec 1.0 y); lra.
Qed.

Lemma fee_adequacy_spec_mono r1 f1 r2 f2 :
  r1 <= r2 → f1 <= f2 → fee_adequacy_spec r1 f1 <= fee_adequacy_spec r2 f2.
Proof.
  intros Hr Hf. unfold fee_adequacy_spec.
  assert (clamp (r1 * 100) 0.0 1.0 <= clamp (r2 * 100) 0.0 1.0)
    by (apply clamp_mono; lra).
  pose proof (clamp_bounds (r1 * 100)). pose proof (clamp_bounds (r2 * 100)).
  destruct (Qlt_le_dec f1 0.1), (Qlt_le_dec f2 0.1); lra.
Qed.

Lemma scored_fee_adequacy {np : Numpy} st d :
  status_of (score_transaction st (Ok (PyDict d))) = 200%Z →
  ∃ fee_rate fee fa,
    as_num (default (PyFloat 0.0) (d !! "fee_rate")) = Some fee_rate ∧
    as_num (default (PyFloat 0.0) (d !! "fee")) = Some fee ∧
    body_of (score_transaction st (Ok (PyDict d))) !! "fee_adequacy"
      = Some (PyFloat fa) ∧
    fa == fee_adequacy_spec fee_rate fee.
Proof.
  intros (d' & m & x & label & ds & fa & [= <-] & _ & _ & _ & _ & _ & Hfee & E)
    %score_transaction_200_status.
  destruct (fee_heuristic_spec _ _ Hfee) as (fee_rate & fee & Hrate & Hfee' & Hfa).
  exists fee_rate, fee, fa. rewrite E. unfold body_of. simpl.
  split_and!; [done | done | apply score_body_fee | done].
Qed.

(** "Higher fee rate = better adequacy", and a lower fee never helps: of two
    scored payloads, the one with the larger [fee_rate] and the larger [fee]
    has the larger or equal [fee_adequacy]. *)
Theorem fee_adequacy_is_monotone {np : Numpy} st1 st2 d1 d2 r1 r2 f1 f2 fa1 fa2 :
  status_of (score_transaction st1 (Ok (PyDict d1))) = 200%Z →
  status_of (score_transaction st2 (Ok (PyDict d2))) = 200%Z →
  as_num (default (PyFloat 0.0) (d1 !! "fee_rate")) = Some r1 →
  as_num (default (PyFloat 0.0) (d2 !! "fee_rate")) = Some r2 →
  as_num (default (PyFloat 0.0) (d1 !! "fee")) = Some f1 →
  as_num (default (PyFloat 0.0) (d2 !! "fee")) = Some f2 →
  body_of (score_transaction st1 (Ok (PyDict d1))) !! "fee_adequacy"
    = Some (PyFloat fa1) →
  body_of (score_transaction st2 (Ok (PyDict d2))) !! "fee_adequacy"
    = Some (PyFloat fa2) →
  r1 <= r2 → f1 <= f2 → fa1 <= fa2.
Proof.
  intros (r1' & f1' & fa1' & Hr1 & Hf1 & Hb1 & E1)%scored_fee_adequacy
         (r2' & f2' & fa2' & Hr2 & Hf2 & Hb2 & E2)%scored_fee_adequacy.
  rewrite Hr1, Hr2, Hf1, Hf2, Hb1, Hb2.
  intros [= <-] [= <-] [= <-] [= <-] [= <-] [= <-] Hr Hf.
  rewrite E1, E2. by apply fee_adequacy_spec_mono.
Qed.

Lemma fee_adequacy_is_monotone_witness :
  (1.0 * 0.5 <= 1.0)%Q.
Proof.
  apply (fee_adequacy_is_monotone Sample.warm Sample.warm
           Sample.low_fee_payload Sample.payload 0.01 0.01 0.05 1.0 (1.0 * 0.5) 1.0);
    vm_compute; (reflexivity || discriminate).
Defined.

Lemma scored_anomaly {np : Numpy} st d m x ds :
  status_of (score_transaction st (Ok (PyDict d))) = 200%Z →
  tx_anomaly_model st = Some m →
  extract_features (PyDict d) = Ok x →
  decision_function m x = Ok ds →
  body_of (score_transaction st (Ok (PyDict d))) !! "anomaly_score"
    = Some (PyFloat (float_max 0.0 (float_min 1.0 (0.5 - ds)))).
Proof.
  intros (d' & m' & x' & label & ds' & fa & [= <-] & _ & Hm & Hx & _ & Hds & _ & E)
    %score_transaction_200_status Hm' Hx' Hds'.
  rewrite Hm in Hm'. injection Hm' as <-.
  rewrite Hx in Hx'. injection Hx' as <-.
  rewrite Hds in Hds'. injection Hds' as <-.
  rewrite E. unfold body_of. simpl. apply score_body_anomaly.
Qed.

(** "Lower values = more anomalous": of two scored requests, the one whose
    decision score is lower has the higher or equal [anomaly_score]. *)
Theorem anomaly_score_is_antitone {np : Numpy} st1 st2 d1 d2 m1 m2 x1 x2 ds1 ds2 a1 a2 :
  status_of (score_transaction st1 (Ok (PyDict d1))) = 200%Z →
  status_of (score_transaction st2 (Ok (PyDict d2))) = 200%Z →
  tx_anomaly_model st1 = Some m1 → tx_anomaly_model st2 = Some m2 →
  extract_features (PyDict d1) = Ok x1 → extract_features (PyDict d2) = Ok x2 →
  decision_function m1 x1 = Ok ds1 → decision_function m2 x2 = Ok ds2 →
  body_of (score_transaction st1 (Ok (PyDict d1))) !! "anomaly_score"
    = Some (PyFloat a1) →
  body_of (score_transaction st2 (Ok (PyDict d2))) !! "anomaly_score"
    = Some (PyFloat a2) →
  ds1 <= ds2 → a2 <= a1.
Proof.
  intros H1 H2 Hm1 Hm2 Hx1 Hx2 Hd1 Hd2.
  rewrite (scored_anomaly _ _ _ _ _ H1 Hm1 Hx1 Hd1),
          (scored_anomaly _ _ _ _ _ H2 Hm2 Hx2 Hd2).
  intros [= <-] [= <-] Hle.
  rewrite !float_clamp_spec. apply clamp_mono. lra.
Qed.

Lemma anomaly_score_is_antitone_witness :
  (float_max 0.0 (float_min 1.0 (0.5 - 0.3)) <= float_max 0.0 (float_min 1.0 (0.5 - -0.2)))%Q.
Proof.
  apply (anomaly_score_is_antitone
           (Faulty.st_constant (-0.2)) (Faulty.st_constant 0.3)
           Sample.payload Sample.payload
           (Faulty.constant (-0.2)) (Faulty.constant 0.3)
           [PyInt 2; PyInt 2; PyFloat 100.0; PyFloat 99.0; PyFloat 1.0;
            PyFloat 0.01; PyFloat 0.99; PyInt 1]
           [PyInt 2; PyInt 2; PyFloat 100.0; PyFloat 99.0; PyFloat 1.0;
            PyFloat 0.01; PyFloat 0.99; PyInt 1]
           (-0.2) 0.3);
    vm_compute; (reflexivity || discriminate).
Defined.

(** The anomaly score is [0.5 - decisionScore] for decision scores between
    [-0.5] and [0.5], is 0 from [0.5] up and 1 from [-0.5] down. *)
Theorem anomaly_score_saturates {np : Numpy} st d m x ds :
  status_of (score_transaction st (Ok (PyDict d))) = 200%Z →
  tx_anomaly_model st = Some m →
  extract_features (PyDict d) = Ok x →
  decision_function m x = Ok ds →
  ∃ a,
    body_of (score_transaction st (Ok (PyDict d))) !! "anomaly_score"
      = Some (PyFloat a) ∧
    (0.5 <= ds → a == 0) ∧
    (ds <= -0.5 → a == 1) ∧
    (-0.5 <= ds <= 0.5 → a == 0.5 - ds).
Proof.
  intros H Hm Hx Hds. eexists. split; [by eapply scored_anomaly |].
  rewrite float_clamp_spec. unfold clamp.
  destruct (Qlt_le_dec (0.5 - ds) 0.0), (Qlt_le_dec 1.0 (0.5 - ds));
    split_and!; intros; lra.
Qed.

Lemma anomaly_score_saturates_witness :
  ∃ a,
    body_of (score_transaction (Faulty.st_constant 0.3) (Ok (PyDict Sample.payload)))
      !! "anomaly_score" = Some (PyFloat a) ∧
    (0.5 <= 0.3 → a == 0) ∧
    (0.3 <= -0.5 → a == 1) ∧
    (-0.5 <= 0.3 <= 0.5 → a == 0.5 - 0.3).
Proof.
  exact (anomaly_score_saturates (Faulty.st_constant 0.3) Sample.payload
           (Faulty.constant 0.3)
           [PyInt 2; PyInt 2; PyFloat 100.0; PyFloat 99.0; PyFloat 1.0;
            PyFloat 0.01; PyFloat 0.99; PyInt 1] 0.3
           eq_refl eq_refl eq_refl eq_refl).
Defined.

(** The fee score by range: at most [0.5] when [fee < 0.1]; [1] when
    [fee_rate] is at least [0.01] and [fee] at least [0.1]; [0] when
    [fee_rate] is zero or negative; [fee_rate * 100] in between, halved for
    a low fee. *)
Theorem fee_adequacy_saturates {np : Numpy} st d :
  status_of (score_transaction st (Ok (PyDict d))) = 200%Z →
  ∃ fee_rate fee fa,
    as_num (default (PyFloat 0.0) (d !! "fee_rate")) = Some fee_rate ∧
    as_num (default (PyFloat 0.0) (d !! "fee")) = Some fee ∧
    body_of (score_transaction st (Ok (PyDict d))) !! "fee_adequacy"
      = Some (PyFloat fa) ∧
    (fee < 0.1 → fa <= 0.5) ∧
    (0.01 <= fee_rate → 0.1 <= fee → fa == 1) ∧
    (fee_rate <= 0 → fa == 0) ∧
    (0 <= fee_rate <= 0.01 → 0.1 <= fee → fa == fee_rate * 100) ∧
    (0 <= fee_rate <= 0.01 → fee < 0.1 → fa == fee_rate * 50).
Proof.
  intros (r & f & fa & Hr & Hf & Hb & E)%scored_fee_adequacy.
  exists r, f, fa. split_and!; [done | done | done | ..];
    rewrite E; unfold fee_adequacy_spec, clamp; intros;
    repeat match goal with |- context [Qlt_le_dec ?a ?b] =>
      destruct (Qlt_le_dec a b) end; lra.
Qed.

Lemma fee_adequacy_saturates_witness :
  ∃ fee_rate fee fa,
    as_num (default (PyFloat 0.0) (Sample.low_fee_payload !! "fee_rate")) = Some fee_rate ∧
    as_num (default (PyFloat 0.0) (Sample.low_fee_payload !! "fee")) = Some fee ∧
    body_of (score_transaction Sample.warm (Ok (PyDict Sample.low_fee_payload)))
      !! "fee_adequacy" = Some (PyFloat fa) ∧
    (fee < 0.1 → fa <= 0.5) ∧
    (0.01 <= fee_rate → 0.1 <= fee → fa == 1) ∧
    (fee_rate <= 0 → fa == 0) ∧
    (0 <= fee_rate <= 0.01 → 0.1 <= fee → fa == fee_rate * 100) ∧
    (0 <= fee_rate <= 0.01 → fee < 0.1 → fa == fee_rate * 50).
Proof.
  apply (fee_adequacy_saturates Sample.warm Sample.low_fee_payload).
  vm_compute. reflexivity.
Defined.

(** ** Keys the handler does not read *)

(** A key that is not one of the eight fields changes nothing in a payload
    that is already non-empty: same response, same log.  On the empty object
    it makes the difference between the 400 and a scoring with all
    defaults. *)
Theorem unknown_key_is_ignored {np : Numpy} st d key v :
  (∀ dflt, (key, dflt) ∉ feature_fields) →
  (size d ≠ 0%nat →
   score_transaction st (Ok (PyDict (<[ key := v ]> d)))
     = score_transaction st (Ok (PyDict d))) ∧
  (status_of (score_transaction st (Ok (PyDict (∅ : gmap string pyval)))) = 400%Z ∧
   status_of (score_transaction st (Ok (PyDict (<[ key := v ]> ∅)))) ≠ 400%Z ∧
   extract_features (PyDict (<[ key := v ]> ∅))
     = Ok (feature_fields.*2)).
Proof.
  intros Hkey.
  assert (Hget : ∀ (d' : gmap string pyval) k dk,
            (k, dk) ∈ feature_fields →
            default dk (<[ key := v ]> d' !! k) = default dk (d' !! k)).
  { intros d' k dk Hk. rewrite lookup_insert_ne; [done |].
    intros ->. by apply (Hkey dk). }
  assert (Hsize : ∀ d' : gmap string pyval, (size (<[ key := v ]> d') =? 0)%nat = false).
  { intros d'. destruct (size (<[ key := v ]> d')) eqn:E; [| done].
    apply map_size_empty_iff in E.
    by apply insert_non_empty in E. }
  split_and!.
  - intros Hd. apply score_transaction_ext; [| by intros; apply Hget].
    rewrite Hsize. by destruct (size d).
  - reflexivity.
  - intros (data & [= <-] & Hfalsy)%score_transaction_400.
    simpl in Hfalsy. by rewrite Hsize in Hfalsy.
  - rewrite extract_features_dict. f_equal.
    apply list_fmap_ext. intros i [k dk] Hi.
    rewrite Hget by (by eapply list_elem_of_lookup_2). by rewrite lookup_empty.
Qed.

Lemma unknown_key_is_ignored_witness :
  (size Sample.payload ≠ 0%nat →
   score_transaction Sample.warm (Ok (PyDict (<[ "memo" := PyStr "hello" ]> Sample.payload)))
     = score_transaction Sample.warm (Ok (PyDict Sample.payload))) ∧
  (status_of (score_transaction Sample.warm (Ok (PyDict (∅ : gmap string pyval)))) = 400%Z ∧
   status_of (score_transaction Sample.warm
                (Ok (PyDict (<[ "memo" := PyStr "hello" ]> ∅)))) ≠ 400%Z ∧
   extract_features (PyDict (<[ "memo" := PyStr "hello" ]> ∅))
     = Ok (feature_fields.*2)).
Proof.
  apply (unknown_key_is_ignored Sample.warm Sample.payload "memo" (PyStr "hello")).
  intros dflt H. apply list_elem_of_In in H. simpl in H.
  repeat match goal with H : _ ∨ _ |- _ => destruct H end; by simplify_eq.
Defined.

(** ** [health] *)

Lemma health_model_loaded st :
  (health st).1 !! "model_loaded"
  = Some (PyBool (match tx_anomaly_model st with Some _ => true | None => false end)).
Proof. unfold health. by simplify_map_eq. Qed.

(** Serving requests never changes what [/health] reports. *)
Theorem health_is_stable_under_requests {np : Numpy} st requests :
  health (serve st requests) = health st.
Proof. unfold health. by rewrite serve_model. Qed.

(** While [/health] reports [model_loaded: false], no request is scored: a
    falsy payload gets the 400 and everything else a 500.  For a non-empty
    object the array is built first: the 500 carries numpy's error when
    [np.array] refuses the row, and the [AttributeError] on [None]
    otherwise. *)
Theorem unloaded_model_scores_nothing {np : Numpy} st :
  (health st).1 !! "model_loaded" = Some (PyBool false) →
  (∀ get_json, status_of (score_transaction st get_json) ≠ 200%Z) ∧
  (∀ d x, size d ≠ 0%nat → extract_features (PyDict d) = Ok x →
     (score_transaction st (Ok (PyDict d))).1
       = ({[ "error" :=
              PyStr (match np_array_error x with
                     | Some e => exn_str e
                     | None => "'NoneType' object has no attribute 'predict'"
                     end) ]}, 500%Z)).
Proof.
  rewrite health_model_loaded. intros Hloaded.
  destruct (tx_anomaly_model st) as [m |] eqn:Hm; [done |]. split.
  - intros get_json (d & m & x & label & ds & _ & _ & Hm' & _)%status_200_iff.
    by rewrite Hm in Hm'.
  - intros d x Hd Hx. rewrite extract_features_dict in Hx. injection Hx as <-.
    unfold score_transaction, score_try. simpl.
    destruct (size d); [done |]. simpl. unfold np_array.
    match goal with |- context [np_array_error ?row] =>
      destruct (np_array_error row) as [e |]; simpl; [done |]
    end.
    by rewrite Hm.
Qed.

Lemma unloaded_model_scores_nothing_witness :
  (∀ get_json, status_of (score_transaction initial_state get_json) ≠ 200%Z) ∧
  (∀ d x, size d ≠ 0%nat → extract_features (PyDict d) = Ok x →
     (score_transaction initial_state (Ok (PyDict d))).1
       = ({[ "error" :=
              PyStr (match np_array_error x with
                     | Some e => exn_str e
                     | None => "'NoneType' object has no attribute 'predict'"
                     end) ]}, 500%Z)).
Proof.
  apply (unloaded_model_scores_nothing initial_state). reflexivity.
Defined.

(** [np.array] runs before the model is touched: when it refuses the row of
    a non-empty object, the answer is the 500 with numpy's text, with a
    model loaded or without, and neither inference method decides it. *)
Theorem ragged_row_is_500 {np : Numpy} st d x e :
  size d ≠ 0%nat →
  extract_features (PyDict d) = Ok x →
  np_array_error x = Some e →
  score_transaction st (Ok (PyDict d)) =
    (({[ "error" := PyStr (exn_str e) ]}, 500%Z),
     logger (LogError ("Error scoring transaction: " +:+ exn_str e)) st).
Proof.
  intros Hd Hx He. rewrite extract_features_dict in Hx. injection Hx as <-.
  unfold score_transaction, score_try. simpl in *.
  destruct (size d); [done |]. simpl. unfold np_array. by rewrite He.
Qed.

Lemma ragged_row_is_500_witness :
  score_transaction initial_state (Ok (PyDict Faulty.ragged_payload)) =
    (({[ "error" := PyStr (exn_str SampleNumpy.ragged) ]}, 500%Z),
     logger (LogError ("Error scoring transaction: " +:+ exn_str SampleNumpy.ragged))
       initial_state).
Proof.
  apply (ragged_row_is_500 initial_state Faulty.ragged_payload
           [PyList [PyInt 1; PyInt 2]; PyInt 2; PyFloat 100.0; PyFloat 99.0;
            PyFloat 1.0; PyFloat 0.01; PyFloat 0.99; PyInt 1]
           SampleNumpy.ragged).
  - vm_compute. discriminate.
  - reflexivity.
  - reflexivity.
Defined.

(** ** More on the model manager *)

Section model_manager_more.
Context {W : Type} `{!Libs W}.



(** An artifact that exists is never overwritten: the files are left as they
    are whether or not it loads, and when the call returns the process
    model is the one [joblib.load] gave, not a newly fitted one. *)
Theorem existing_artifact_is_kept st w :
  os_path_exists model_path w = true →
  (load_or_create_model st w).2 = w ∧
  ((load_or_create_model st w).1.1 = Ok () →
   ∃ m, joblib_load model_path w = Ok m ∧
        tx_anomaly_model (load_or_create_model st w).1.2 = Some m).
Proof.
  intros Hexists. unfold load_or_create_model. rewrite Hexists.
  destruct (joblib_load model_path w) as [m | e]; simpl; [| done].
  split; [done |]. intros _. by exists m.
Qed.

(** When the directory cannot be created, nothing is dumped: the exception
    of [os.makedirs] leaves the function and the files are as before. *)
Theorem makedirs_failure_propagates st w e :
  os_path_exists model_path w = false →
  os_makedirs "models" w = Raise e →
  (load_or_create_model st w).1.1 = Raise e ∧
  (load_or_create_model st w).2 = w ∧
  tx_anomaly_model (load_or_create_model st w).1.2
    = Some (sklearn_fit new_forest dummy_data).
Proof.
  intros Hexists Hmk. unfold load_or_create_model. by rewrite Hexists, Hmk.
Qed.

(** A restart after a cold start: if a dumped model can be found and loaded
    back, the next process loads the model the first one fitted and leaves
    the files alone. *)
Theorem restart_loads_dumped_model st st' w :
  (∀ m p w1 w2, joblib_dump m p w1 = Ok w2 →
     os_path_exists p w2 = true ∧ joblib_load p w2 = Ok m) →
  os_path_exists model_path w = false →
  (load_or_create_model st w).1.1 = Ok () →
  load_or_create_model st' (load_or_create_model st w).2 =
    (Ok (),
     set_model (sklearn_fit new_forest dummy_data)
       (logger (LogInfo ("Loading model from " +:+ model_path)) st'),
     (load_or_create_model st w).2) ∧
  tx_anomaly_model (load_or_create_model st' (load_or_create_model st w).2).1.2
    = tx_anomaly_model (load_or_create_model st w).1.2.
Proof.
  intros Hlaw Hexists Hok.
  assert (∃ w1 w2,
            joblib_dump (sklearn_fit new_forest dummy_data) model_path w1 = Ok w2 ∧
            (load_or_create_model st w).2 = w2 ∧
            tx_anomaly_model (load_or_create_model st w).1.2
              = Some (sklearn_fit new_forest dummy_data))
    as (w1 & w2 & Hdump & -> & ->).
  { revert Hok. unfold load_or_create_model, new_forest. rewrite Hexists.
    destruct (os_makedirs "models" w) as [w1 | e]; simpl; [| done].
    destruct (joblib_dump _ model_path w1) as [w2 | e] eqn:Hdump; simpl; [| done].
    intros _. by exists w1, w2. }
  destruct (Hlaw _ _ _ _ Hdump) as [Hexists2 Hload2].
  by rewrite (warm_start_loads st' w2 _ Hexists2 Hload2).
Qed.


End model_manager_more.

(** *** On the in-memory file system *)

Lemma memfs_dump_then_load m p (w1 w2 : gmap string MemFS.node) :
  joblib_dump m p w1 = Ok w2 →
  os_path_exists p w2 = true ∧ joblib_load p w2 = Ok m.
Proof.
  simpl. unfold MemFS.dump, MemFS.exists_, MemFS.load.
  destruct (w1 !! MemFS.dirname p) as [[[] |] |]; try done.
  intros [= <-]. by rewrite lookup_insert_eq.
Qed.


Lemma existing_artifact_is_kept_witness :
  (load_or_create_model initial_state Faulty.warm_disk).2 = Faulty.warm_disk ∧
  ((load_or_create_model initial_state Faulty.warm_disk).1.1 = Ok () →
   ∃ m, joblib_load model_path Faulty.warm_disk = Ok m ∧
        tx_anomaly_model (load_or_create_model initial_state Faulty.warm_disk).1.2
          = Some m).
Proof.
  exact (existing_artifact_is_kept initial_state Faulty.warm_disk eq_refl).
Defined.

Lemma makedirs_failure_propagates_witness :
  (load_or_create_model initial_state Faulty.models_is_file).1.1
    = Raise (Exception "FileExistsError" "File exists: models") ∧
  (load_or_create_model initial_state Faulty.models_is_file).2
    = Faulty.models_is_file ∧
  tx_anomaly_model (load_or_create_model initial_state Faulty.models_is_file).1.2
    = Some (sklearn_fit new_forest dummy_data).
Proof.
  exact (makedirs_failure_propagates initial_state Faulty.models_is_file
           (Exception "FileExistsError" "File exists: models") eq_refl eq_refl).
Defined.

Lemma restart_loads_dumped_model_witness :
  load_or_create_model initial_state
      (load_or_create_model initial_state Sample.empty_disk).2 =
    (Ok (),
     set_model (sklearn_fit new_forest dummy_data)
       (logger (LogInfo ("Loading model from " +:+ model_path)) initial_state),
     (load_or_create_model initial_state Sample.empty_disk).2) ∧
  tx_anomaly_model
      (load_or_create_model initial_state
         (load_or_create_model initial_state Sample.empty_disk).2).1.2
    = tx_anomaly_model (load_or_create_model initial_state Sample.empty_disk).1.2.
Proof.
  exact (restart_loads_dumped_model initial_state initial_state Sample.empty_disk
           memfs_dump_then_load eq_refl eq_refl).
Defined.

(** The start of the process on three disks: a cold start on port 8080, a
    port that is not a number, an artifact that does not unpickle. *)
Example main_on_memfs :
  (∃ st, (main Faulty.int_of_str (Some "8080") Sample.empty_disk).1 = Ok (st, 8080%Z) ∧
         log st = [LogInfo "Creating new IsolationForest model";
                   LogInfo "Model saved to models/tx_anomaly_model.pkl";
                   LogInfo "Starting AI scorer service on port 8080"]) ∧
  (main Faulty.int_of_str (Some "http") Sample.empty_disk).1
    = Raise (Exception "ValueError" "invalid literal for int() with base 10: 'http'") ∧
  (main Faulty.int_of_str None Sample.corrupt_disk).1
    = Raise (Exception "UnpicklingError" "invalid load key").
Proof. split_and!; [by eexists | reflexivity | reflexivity]. Qed.

(** A cold start puts the fitted model in memory before it touches a file:
    without an artifact, the process model after the call is the forest
    fitted on [dummy_data], whether the directory and the dump succeed or
    not, and whatever model was there before. *)
Theorem cold_start_model_is_in_memory {W : Type} `{!Libs W} st (w : W) :
  os_path_exists model_path w = false →
  tx_anomaly_model (load_or_create_model st w).1.2
    = Some (sklearn_fit new_forest dummy_data) ∧
  ((load_or_create_model st w).1.1 = Ok () ↔
   ∃ w1, os_makedirs "models" w = Ok w1 ∧
         joblib_dump (sklearn_fit new_forest dummy_data) model_path w1
           = Ok (load_or_create_model st w).2).
Proof.
  intros Hexists. unfold load_or_create_model, new_forest. rewrite Hexists.
  destruct (os_makedirs "models" w) as [w1 | e]; simpl.
  - destruct (joblib_dump _ model_path w1) as [w2 | e'] eqn:Hdump; simpl.
    + split; [done |]. split; [intros _; by exists w1 | done].
    + split; [done |]. split; [done |]. intros (w1' & [= <-] & Hdump').
      by rewrite Hdump in Hdump'.
  - split; [done |]. split; [done | by intros (w1 & ? & _)].
Qed.

Lemma cold_start_model_is_in_memory_witness :
  tx_anomaly_model (load_or_create_model Faulty.st_no_label Sample.read_only_disk).1.2
    = Some (sklearn_fit new_forest dummy_data) ∧
  ((load_or_create_model Faulty.st_no_label Sample.read_only_disk).1.1 = Ok () ↔
   ∃ w1, os_makedirs "models" Sample.read_only_disk = Ok w1 ∧
         joblib_dump (sklearn_fit new_forest dummy_data) model_path w1
           = Ok (load_or_create_model Faulty.st_no_label Sample.read_only_disk).2).
Proof.
  exact (cold_start_model_is_in_memory Faulty.st_no_label Sample.read_only_disk eq_refl).
Defined.
